(** * Information-hub RAG: ingestion and query pipeline

    A shallow embedding of [app/information_loader.py], [app/rag_pipeline.py],
    [app/observability.py] and the two endpoints of [app/main.py] that drive
    them, with the properties of the design document stated over it.

    Python objects that are mutated in place (the loader's temporary files,
    the pipeline instance, the Prometheus metrics) live in explicit state
    records that are threaded through a small state-and-exception monad:
    a raised exception keeps every mutation made before it, as in Python.
    Third-party libraries (validators, requests, BeautifulSoup, pypdf, boto3,
    langchain, FAISS, OpenAI) are collaborators: their observable behaviour is
    gathered in one record [World] over which every definition is
    parametrised. Logging has no effect on the modelled state and is left
    out. A character of a Python [str] is one [ascii] of a Rocq [string]. *)

From Stdlib Require Import ZArith QArith String Ascii List Bool Lia.
From stdpp Require Import base option list strings gmap.

Local Open Scope string_scope.
Local Open Scope Z_scope.

(** ** Python results and exceptions *)

Module Py.

(** The exception classes that the sources raise, catch or let through.
    Every constructor is an instance of Python's [Exception]. *)
Inductive exn : Type :=
| ValueError (msg : string)
| OSError (msg : string)              (* FileNotFoundError, UnicodeDecodeError, ... *)
| ClientError (msg : string)          (* botocore.exceptions.ClientError *)
| RequestException (msg : string)     (* requests.RequestException, HTTPError *)
| LibraryError (msg : string)         (* pypdf, langchain, faiss, openai *)
| HTTPException (status_code : Z) (detail : string).

(** [str(e)] *)
Definition str (e : exn) : string :=
  match e with
  | ValueError m | OSError m | ClientError m
  | RequestException m | LibraryError m => m
  | HTTPException _ d => d
  end.

Inductive result (A : Type) : Type :=
| Ok (a : A)
| Raise (e : exn).
Arguments Ok {A} a.
Arguments Raise {A} e.

Definition is_ok {A} (r : result A) : bool :=
  match r with Ok _ => true | Raise _ => false end.

(** A computation over a mutable state [S]: the final state is returned
    on both exits. *)
Definition M (S A : Type) : Type := S -> result A * S.

Definition ret {S A} (a : A) : M S A := fun s => (Ok a, s).
Definition raise {S A} (e : exn) : M S A := fun s => (Raise e, s).
Definition bind {S A B} (m : M S A) (k : A -> M S B) : M S B :=
  fun s => match m s with
           | (Ok a, s') => k a s'
           | (Raise e, s') => (Raise e, s')
           end.
Definition gets {S A} (f : S -> A) : M S A := fun s => (Ok (f s), s).
Definition modify {S} (f : S -> S) : M S unit := fun s => (Ok tt, f s).
Definition lift_result {S A} (r : result A) : M S A := fun s => (r, s).

(** [try: body  except Exception as e: handler(e)] *)
Definition try_except {S A} (body : M S A) (handler : exn -> M S A) : M S A :=
  fun s => match body s with
           | (Ok a, s') => (Ok a, s')
           | (Raise e, s') => handler e s'
           end.

(** [try: body  finally: final] with a [final] block that does not raise
    on its own: it runs on both exits and the outcome of [body] stands. *)
Definition try_finally {S A} (body : M S A) (final : M S unit) : M S A :=
  fun s => match body s with
           | (r, s') => (r, snd (final s'))
           end.

(** Run a computation over a component [T] of the state [S]. *)
Definition zoom {S T A} (get : S -> T) (set : T -> S -> S) (m : M T A) : M S A :=
  fun s => match m (get s) with
           | (r, t') => (r, set t' s)
           end.

End Py.

Import Py.

Declare Scope py_scope.
Delimit Scope py_scope with py.
Notation "x <- m ;; k" := (bind m (fun x => k))
  (at level 100, m at next level, right associativity) : py_scope.
Notation "m ;;; k" := (bind m (fun _ => k))
  (at level 100, right associativity) : py_scope.
Local Open Scope py_scope.

(** ** Strings as Python uses them *)

Module Str.

(** [len(s)] *)
Definition len (s : string) : Z := Z.of_nat (String.length s).

Fixpoint take (n : nat) (s : string) : string :=
  match n, s with
  | S n', String c s' => String c (take n' s')
  | _, _ => EmptyString
  end.

Fixpoint drop (n : nat) (s : string) : string :=
  match n, s with
  | S n', String _ s' => drop n' s'
  | _, _ => s
  end.

(** [s[:n]] for a non-negative literal [n] *)
Definition slice_to (n : Z) (s : string) : string := take (Z.to_nat n) s.

(** [s.startswith(p)] *)
Definition startswith (p s : string) : bool := String.prefix p s.

(** [s.endswith(p)] *)
Definition endswith (p s : string) : bool :=
  (String.length p <=? String.length s)%nat
  && String.eqb (drop (String.length s - String.length p) s) p.

(** Characters that [str.strip()] removes, among the first 256 code
    points. *)
Definition is_space (c : ascii) : bool :=
  let n := nat_of_ascii c in
  ((9 <=? n) && (n <=? 13) || (28 <=? n) && (n <=? 32)
   || (n =? 133) || (n =? 160))%nat.

Fixpoint lstrip (s : string) : string :=
  match s with
  | String c s' => if is_space c then lstrip s' else s
  | EmptyString => EmptyString
  end.

(** [s.strip()] *)
Definition strip (s : string) : string :=
  String.rev (lstrip (String.rev (lstrip s))).

(** [sep.join(l)] *)
Definition join (sep : string) (l : list string) : string :=
  String.concat sep l.

(** [if s:] on a string *)
Definition truthy (s : string) : bool :=
  match s with EmptyString => false | _ => true end.

(** [s.split('/', 1)]: at most one split, at the first separator. *)
Fixpoint split_once (sep : ascii) (s : string) : list string :=
  match s with
  | EmptyString => [EmptyString]
  | String c s' =>
      if Ascii.eqb c sep then [EmptyString; s']
      else match split_once sep s' with
           | h :: t => String c h :: t
           | [] => [String c EmptyString]
           end
  end.

End Str.

(** ** Shared data: metadata, documents, metrics, process state *)

(** A value of a chunk's metadata dict. *)
Inductive meta_value : Type :=
| MStr (s : string)
| MInt (z : Z).

(** [langchain] Document: [page_content] and the [metadata] dict. *)
Record Document : Type := mkDocument {
  page_content : string;
  metadata : gmap string meta_value
}.

(** The FAISS store as the pipeline sees it: one stored document per
    indexed text, in insertion order. *)
Record FAISS : Type := mkFAISS {
  docstore : list Document
}.

(** The object that [load_qa_chain] builds from the prompt and the LLM. *)
Record QAChain : Type := mkQAChain {
  chain_prompt : string;
  chain_api_key : string
}.

(** The Prometheus metrics of [observability.py]: counters and the gauge
    by their value, the histogram by the list of observed values (latest
    first). *)
Record Metrics : Type := mkMetrics {
  QUERY_COUNT : Z;
  QUERY_LATENCY : list Z;
  QUERY_ERRORS : Z;
  TOKENS_USED : Z;
  VECTOR_STORE_SIZE : Z
}.

(** What a process mutates outside its Python objects: the clock that
    [time.time()] reads, the local files (path to content) and the
    metrics registry. *)
Record Env : Type := mkEnv {
  clock : Z;
  fs : gmap string string;
  metrics : Metrics
}.

Definition set_fs (f : gmap string string -> gmap string string) (e : Env) : Env :=
  {| clock := clock e; fs := f (fs e); metrics := metrics e |}.

Definition set_metrics (f : Metrics -> Metrics) (e : Env) : Env :=
  {| clock := clock e; fs := fs e; metrics := f (metrics e) |}.

(** [time.time()]: every reading advances the clock by one tick. *)
Definition time_time : M Env Z :=
  fun e => (Ok (clock e), {| clock := clock e + 1; fs := fs e; metrics := metrics e |}).

(** ** The collaborators *)

Inductive S3Client : Type := Boto3Client.

Record World : Type := mkWorld {
  (* os.getenv *)
  getenv : string -> option string;
  (* config.yaml: CONFIG['rag'][...] *)
  cfg_chunk_size : Z;
  cfg_chunk_overlap : Z;
  cfg_top_k : Z;
  (* boto3.client('s3', ...) *)
  boto3_client : result S3Client;
  (* s3_client.head_bucket(Bucket=...) *)
  head_bucket : S3Client -> string -> result unit;
  (* s3_client.download_file(bucket, key, path): the bytes written *)
  s3_download : string -> string -> result string;
  (* validators.url(source), as a truth value *)
  validators_url : string -> bool;
  (* requests.get(url, timeout=10, headers=...) and raise_for_status():
     response.text *)
  requests_get : string -> result string;
  (* BeautifulSoup(text, 'html.parser'), script and style elements
     decomposed, then get_text(separator='\n', strip=True) *)
  soup_get_text : string -> string;
  (* PdfReader(path).pages and extract_text() on each, from the bytes *)
  pdf_pages : string -> result (list string);
  (* decoding the bytes of a file as UTF-8 *)
  utf8_decode : string -> result string;
  (* the name NamedTemporaryFile(suffix='.tmp', delete=False) picks *)
  temp_name : gmap string string -> string;
  (* RecursiveCharacterTextSplitter(chunk_size, chunk_overlap, ...)
     .split_text(content) *)
  split_text : Z -> Z -> string -> result (list string);
  (* embeddings.embed_documents(texts), called by FAISS.from_texts *)
  embed_documents : list string -> result unit;
  (* vector_store.similarity_search(question, k) *)
  similarity_search : FAISS -> string -> Z -> result (list Document);
  (* OpenAI(openai_api_key=...) and load_qa_chain(llm, 'stuff', prompt) *)
  load_qa_chain : string -> string -> result QAChain;
  (* qa_chain.run(input_documents, question) under get_openai_callback:
     the answer, cb.total_tokens and cb.total_cost *)
  chain_run : QAChain -> list Document -> string -> result (string * Z * Q)
}.

(** ** [information_loader.py] *)

Module InformationLoader.

Record t : Type := mk {
  use_s3 : bool;
  cache_dir : string;
  s3_client : option S3Client;
  s3_bucket : string;
  _s3_initialized : bool
}.

Definition with_use_s3 (b : bool) (self : t) : t :=
  {| use_s3 := b; cache_dir := cache_dir self; s3_client := s3_client self;
     s3_bucket := s3_bucket self; _s3_initialized := _s3_initialized self |}.

Definition with_s3_client (c : option S3Client) (self : t) : t :=
  {| use_s3 := use_s3 self; cache_dir := cache_dir self; s3_client := c;
     s3_bucket := s3_bucket self; _s3_initialized := _s3_initialized self |}.

Definition with_s3_initialized (b : bool) (self : t) : t :=
  {| use_s3 := use_s3 self; cache_dir := cache_dir self; s3_client := s3_client self;
     s3_bucket := s3_bucket self; _s3_initialized := b |}.

(** [not v] on the result of [os.getenv]: [None] and the empty string
    are falsy. *)
Definition env_missing (v : option string) : bool :=
  match v with
  | Some s => negb (Str.truthy s)
  | None => true
  end.

Definition newline : string := String "010"%char EmptyString.

Section Methods.
Variable w : World.

Definition _init_s3_client (self : t) : t :=
  let access_key := getenv w "AWS_ACCESS_KEY_ID" in
  let secret_key := getenv w "AWS_SECRET_ACCESS_KEY" in
  if env_missing access_key || env_missing secret_key then
    with_use_s3 false self
  else
    match boto3_client w with
    | Raise _ => with_use_s3 false self
    | Ok c =>
        let self := with_s3_client (Some c) self in
        match head_bucket w c (s3_bucket self) with
        | Ok _ => self
        | Raise _ => with_use_s3 false self
        end
    end.

(** [InformationLoader(use_s3, cache_dir)] *)
Definition __init__ (use_s3 : bool) (cache_dir : string) : t :=
  let self := {| use_s3 := use_s3; cache_dir := cache_dir; s3_client := None;
                 s3_bucket := default "pj-rag-2026" (getenv w "AWS_S3_BUCKET_NAME");
                 _s3_initialized := false |} in
  if use_s3 && negb (_s3_initialized self) then
    with_s3_initialized true (_init_s3_client self)
  else self.

(** [os.path.exists(path)] *)
Definition path_exists (path : string) : M Env bool :=
  gets (fun e => bool_decide (is_Some (fs e !! path))).

(** Opening [path] for reading: its bytes, or the error of a missing
    file. *)
Definition read_bytes (path : string) : M Env string :=
  fun e => match fs e !! path with
           | Some b => (Ok b, e)
           | None => (Raise (OSError ("No such file or directory: " ++ path)), e)
           end.

Definition _load_from_local_file (file_path : string) : M Env string :=
  try_except
    (b <- read_bytes file_path ;;
     lift_result (utf8_decode w b))
    (fun e => raise e).

Definition _load_from_pdf (file_path : string) : M Env string :=
  try_except
    (b <- read_bytes file_path ;;
     pages <- lift_result (pdf_pages w b) ;;
     let texts := map Str.strip (List.filter Str.truthy pages) in
     ret (Str.join (newline ++ newline) texts))
    (fun e => raise e).

Definition _load_from_web (url : string) : M Env string :=
  try_except
    (response_text <- lift_result (requests_get w url) ;;
     let text := soup_get_text w response_text in
     let text := if (10000 <? Str.len text)%Z
                 then Str.slice_to 10000 text ++ "... [truncated]"
                 else text in
     ret text)
    (fun e => raise e).

Definition _load_from_s3 (self : t) (s3_uri : string) : M Env string :=
  if negb (use_s3 self) || negb (bool_decide (is_Some (s3_client self))) then
    raise (ValueError "S3 client is not initialized or S3 is unavailable.")
  else
    let path := Str.drop 5 s3_uri in
    match Str.split_once "/" path with
    | [bucket; key] =>
        try_except
          ((* with NamedTemporaryFile(...) as tmp_file: the file is created,
              download_file writes into it, the block closes it *)
           tmp_path <- gets (fun e => temp_name w (fs e)) ;;
           modify (set_fs (insert tmp_path EmptyString)) ;;;
           b <- lift_result (s3_download w bucket key) ;;
           modify (set_fs (insert tmp_path b)) ;;;
           content <- (if Str.endswith ".pdf" key
                       then _load_from_pdf tmp_path
                       else _load_from_local_file tmp_path) ;;
           (* os.unlink(tmp_path) *)
           modify (set_fs (delete tmp_path)) ;;;
           ret content)
          (fun e => raise e)
    | _ =>
        raise (ValueError ("Invalid S3 URI format. " ++ s3_uri
                           ++ " should be in the format s3://bucket/key"))
    end.

Definition load_information (self : t) (source : string) : M Env string :=
  try_except
    (if Str.startswith "s3://" source && use_s3 self then
       _load_from_s3 self source
     else if validators_url w source then
       _load_from_web source
     else if Str.endswith ".pdf" source then
       _load_from_pdf source
     else
       found <- path_exists source ;;
       if found then _load_from_local_file source
       else ret source)
    (fun e => raise e).

End Methods.

End InformationLoader.

(** ** [observability.py] *)

Module Observability.

(** [Counter.inc(amount)]: a negative amount is refused. *)
Definition counter_inc (read : Metrics -> Z) (write : Z -> Metrics -> Metrics)
    (amount : Z) : M Env unit :=
  if amount <? 0 then
    raise (ValueError "Counters can only be incremented by non-negative amounts.")
  else modify (set_metrics (fun m => write (read m + amount) m)).

Definition write_QUERY_COUNT (v : Z) (m : Metrics) : Metrics :=
  {| QUERY_COUNT := v; QUERY_LATENCY := QUERY_LATENCY m;
     QUERY_ERRORS := QUERY_ERRORS m; TOKENS_USED := TOKENS_USED m;
     VECTOR_STORE_SIZE := VECTOR_STORE_SIZE m |}.

Definition write_QUERY_ERRORS (v : Z) (m : Metrics) : Metrics :=
  {| QUERY_COUNT := QUERY_COUNT m; QUERY_LATENCY := QUERY_LATENCY m;
     QUERY_ERRORS := v; TOKENS_USED := TOKENS_USED m;
     VECTOR_STORE_SIZE := VECTOR_STORE_SIZE m |}.

Definition write_TOKENS_USED (v : Z) (m : Metrics) : Metrics :=
  {| QUERY_COUNT := QUERY_COUNT m; QUERY_LATENCY := QUERY_LATENCY m;
     QUERY_ERRORS := QUERY_ERRORS m; TOKENS_USED := v;
     VECTOR_STORE_SIZE := VECTOR_STORE_SIZE m |}.

Definition write_VECTOR_STORE_SIZE (v : Z) (m : Metrics) : Metrics :=
  {| QUERY_COUNT := QUERY_COUNT m; QUERY_LATENCY := QUERY_LATENCY m;
     QUERY_ERRORS := QUERY_ERRORS m; TOKENS_USED := TOKENS_USED m;
     VECTOR_STORE_SIZE := v |}.

Definition write_QUERY_LATENCY (v : list Z) (m : Metrics) : Metrics :=
  {| QUERY_COUNT := QUERY_COUNT m; QUERY_LATENCY := v;
     QUERY_ERRORS := QUERY_ERRORS m; TOKENS_USED := TOKENS_USED m;
     VECTOR_STORE_SIZE := VECTOR_STORE_SIZE m |}.

(** [QUERY_COUNT.inc()] *)
Definition QUERY_COUNT_inc : M Env unit :=
  counter_inc QUERY_COUNT write_QUERY_COUNT 1.

(** [QUERY_ERRORS.inc()] *)
Definition QUERY_ERRORS_inc : M Env unit :=
  counter_inc QUERY_ERRORS write_QUERY_ERRORS 1.

(** [TOKENS_USED.inc(amount)] *)
Definition TOKENS_USED_inc (amount : Z) : M Env unit :=
  counter_inc TOKENS_USED write_TOKENS_USED amount.

(** [VECTOR_STORE_SIZE.set(value)] *)
Definition VECTOR_STORE_SIZE_set (value : Z) : M Env unit :=
  modify (set_metrics (write_VECTOR_STORE_SIZE value)).

(** [QUERY_LATENCY.observe(amount)] *)
Definition QUERY_LATENCY_observe (amount : Z) : M Env unit :=
  modify (set_metrics (fun m => write_QUERY_LATENCY (amount :: QUERY_LATENCY m) m)).

(** The decorator, over any state [S] that holds the process
    environment. *)
Definition track_metrics {S A} (get : S -> Env) (set : Env -> S -> S)
    (func : M S A) : M S A :=
  start_time <- zoom get set time_time ;;
  try_finally
    (try_except
       (result <- func ;;
        zoom get set QUERY_COUNT_inc ;;;
        ret result)
       (fun e =>
          zoom get set QUERY_ERRORS_inc ;;;
          raise e))
    (zoom get set
       (now <- time_time ;;
        let elapsed_time := now - start_time in
        QUERY_LATENCY_observe elapsed_time)).

End Observability.

(** ** [rag_pipeline.py] *)

Module ProductionRAGPipeline.

Record t : Type := mk {
  openai_api_key : string;
  information_loader : InformationLoader.t;
  vector_store : option FAISS;
  qa_chain : option QAChain
}.

(** A method runs on the instance [self] and on the process
    environment. *)
Record PState : Type := mkPState {
  self : t;
  env : Env
}.

Definition set_env (e : Env) (s : PState) : PState :=
  {| self := self s; env := e |}.

(** [self.vector_store = v] *)
Definition assign_vector_store (v : option FAISS) (s : PState) : PState :=
  {| self := {| openai_api_key := openai_api_key (self s);
                information_loader := information_loader (self s);
                vector_store := v;
                qa_chain := qa_chain (self s) |};
     env := env s |}.

(** [self.qa_chain = v] *)
Definition assign_qa_chain (v : option QAChain) (s : PState) : PState :=
  {| self := {| openai_api_key := openai_api_key (self s);
                information_loader := information_loader (self s);
                vector_store := vector_store (self s);
                qa_chain := v |};
     env := env s |}.

(** An entry of the [sources] list of a query response. *)
Record SourceInfo : Type := mkSourceInfo {
  content_preview : string;
  source : meta_value;
  source_type : meta_value
}.

(** The dict that [query] returns; the key [sources] may be absent. *)
Record Response : Type := mkResponse {
  answer : string;
  processing_time : Z;
  tokens_used : Z;
  cost_estimate : Q;
  sources : option (list SourceInfo)
}.

Definition with_sources (l : list SourceInfo) (r : Response) : Response :=
  {| answer := answer r; processing_time := processing_time r;
     tokens_used := tokens_used r; cost_estimate := cost_estimate r;
     sources := Some l |}.

Definition dquote : string := String "034"%char EmptyString.

Definition prompt_template : string :=
  let nl := InformationLoader.newline in
  let ind := "        " in
  "You are a helpful assistant that answers questions based on the provided information. Use the following context to answer the question. " ++ nl
  ++ ind ++ nl
  ++ ind ++ "Context:" ++ nl
  ++ ind ++ "{context}" ++ nl
  ++ nl
  ++ ind ++ "Question: {question}" ++ nl
  ++ nl
  ++ ind ++ "Answer in a concise and accurate manner, and only use the provided context to answer. If the answer is not in the context, say "
  ++ dquote ++ "I don't know" ++ dquote ++ "." ++ nl
  ++ ind.

(** [get_source_type] *)
Definition get_source_type (source : string) : string :=
  if Str.startswith "s3://" source then "s3"
  else if Str.startswith "http://" source || Str.startswith "https://" source then "web"
  else "local".

(** The metadata dict of the chunk appended at position [idx]. *)
Definition chunk_metadata (source : string) (idx : Z) : gmap string meta_value :=
  <["source" := MStr source]>
    (<["chunk_index" := MInt idx]>
       (<["source_type" := MStr (get_source_type source)]> ∅)).

(** The inner loop [for chunk in texts]: both lists grow together and
    [chunk_index] is the position in [all_texts]. *)
Definition append_chunks (source : string) (texts : list string)
    (acc : list string * list (gmap string meta_value))
  : list string * list (gmap string meta_value) :=
  fold_left
    (fun (acc : list string * list (gmap string meta_value)) chunk =>
       let all_texts := (fst acc ++ [chunk])%list in
       (all_texts,
        (snd acc ++ [chunk_metadata source (Z.of_nat (length all_texts) - 1)])%list))
    texts acc.

(** [doc.metadata.get(key, "Unknown")] *)
Definition metadata_get (doc : Document) (key : string) : meta_value :=
  default (MStr "Unknown") (metadata doc !! key).

(** The conditional expression that builds [content_preview]. *)
Definition preview (content : string) : string :=
  if 200 <? Str.len content then Str.slice_to 200 content ++ "..." else content.

Definition source_info (doc : Document) : SourceInfo :=
  {| content_preview := preview (page_content doc);
     source := metadata_get doc "source";
     source_type := metadata_get doc "source_type" |}.

Definition not_ready_message : string :=
  "Vector store or QA chain not initialized. Create the vector store first.".

Definition empty_batch_message : string :=
  "No valid text loaded from sources to create vector store.".

Section Methods.
Variable w : World.

(** [ProductionRAGPipeline(openai_api_key)] *)
Definition __init__ (openai_api_key : string) : t :=
  {| openai_api_key := openai_api_key;
     information_loader := InformationLoader.__init__ w true "./cache";
     vector_store := None;
     qa_chain := None |}.

(** [FAISS.from_texts(texts, embedding, metadatas)]: the texts are
    embedded in one call, whose exception propagates, and stored with
    their metadata. *)
Definition FAISS_from_texts (texts : list string)
    (metadatas : list (gmap string meta_value)) : result FAISS :=
  match embed_documents w texts with
  | Ok _ => Ok {| docstore := zip_with mkDocument texts metadatas |}
  | Raise e => Raise e
  end.

(** [_create_qa_chain] stores the chain in [self.qa_chain] and has no
    [return] statement: the call evaluates to [None]. *)
Definition _create_qa_chain : M PState (option QAChain) :=
  key <- gets (fun s => openai_api_key (self s)) ;;
  chain <- lift_result (load_qa_chain w key prompt_template) ;;
  modify (assign_qa_chain (Some chain)) ;;;
  ret None.

(** The body of the [try] for one source: load, split, append. The loop
    that converts chunks which are not [str] has nothing to do on a list
    of strings. *)
Definition process_source_body (source : string)
    (acc : list string * list (gmap string meta_value))
  : M PState (list string * list (gmap string meta_value)) :=
  loader <- gets (fun s => information_loader (self s)) ;;
  content <- zoom env set_env
               (InformationLoader.load_information w loader source) ;;
  texts <- lift_result
             (split_text w (cfg_chunk_size w) (cfg_chunk_overlap w) content) ;;
  ret (append_chunks source texts acc).

(** One turn of the loop: [except Exception] logs and continues with
    the lists as they are. *)
Definition process_source (source : string)
    (acc : list string * list (gmap string meta_value))
  : M PState (list string * list (gmap string meta_value)) :=
  try_except (process_source_body source acc) (fun _ => ret acc).

(** [for i, source in enumerate(sources_list)] *)
Fixpoint for_sources (sources_list : list string)
    (acc : list string * list (gmap string meta_value))
  : M PState (list string * list (gmap string meta_value)) :=
  match sources_list with
  | [] => ret acc
  | source :: rest =>
      acc' <- process_source source acc ;;
      for_sources rest acc'
  end.

Definition create_vector_store (sources_list : list string) : M PState unit :=
  acc <- for_sources sources_list ([], []) ;;
  let all_texts := fst acc in
  let all_metadatas := snd acc in
  match all_texts with
  | [] => raise (ValueError empty_batch_message)
  | _ :: _ =>
      zoom env set_env
        (Observability.VECTOR_STORE_SIZE_set (Z.of_nat (length all_texts))) ;;;
      store <- lift_result (FAISS_from_texts all_texts all_metadatas) ;;
      modify (assign_vector_store (Some store)) ;;;
      created <- _create_qa_chain ;;
      modify (assign_qa_chain created)
  end.

Definition query (question : string) (return_sources : bool) : M PState Response :=
  start_time <- zoom env set_env time_time ;;
  me <- gets self ;;
  match vector_store me, qa_chain me with
  | Some store, Some chain =>
      try_except
        (docs <- lift_result (similarity_search w store question (cfg_top_k w)) ;;
         run <- lift_result (chain_run w chain docs question) ;;
         let answer := fst (fst run) in
         let total_tokens := snd (fst run) in
         let total_cost := snd run in
         zoom env set_env (Observability.TOKENS_USED_inc total_tokens) ;;;
         now <- zoom env set_env time_time ;;
         let response :=
           {| answer := answer;
              processing_time := now - start_time;
              tokens_used := total_tokens;
              cost_estimate := total_cost;
              sources := None |} in
         ret (if return_sources
              then with_sources (map source_info docs) response
              else response))
        (fun e => raise e)
  | _, _ => raise (ValueError not_ready_message)
  end.

End Methods.

End ProductionRAGPipeline.

(** ** [main.py]: the query and ingest endpoints *)

Module Main.

Import ProductionRAGPipeline.

(** The module globals and the process environment. *)
Record AppState : Type := mkAppState {
  rag_pipeline : option ProductionRAGPipeline.t;
  app_env : Env
}.

Definition set_app_env (e : Env) (s : AppState) : AppState :=
  {| rag_pipeline := rag_pipeline s; app_env := e |}.

Record QueryRequest : Type := mkQueryRequest {
  question : string;
  return_sources : bool
}.

Record IngestRequest : Type := mkIngestRequest {
  request_sources : list string;
  replace_existing : bool
}.

(** The dict that [ingest_sources] returns. *)
Record IngestReport : Type := mkIngestReport {
  status : string;
  message : string;
  sources_processed : Z;
  ingested_sources : list string
}.

(** A method call on the object that the global [rag_pipeline] names:
    the mutations of the method are seen through the global. *)
Definition call_method {A} (p : ProductionRAGPipeline.t) (m : M PState A)
  : M AppState A :=
  fun s => match m {| self := p; env := app_env s |} with
           | (r, ps) => (r, {| rag_pipeline := Some (self ps); app_env := env ps |})
           end.

Section Endpoints.
Variable w : World.

(** The function below the decorators *)
Definition query_question_body (request : QueryRequest) : M AppState Response :=
  pipeline <- gets rag_pipeline ;;
  match pipeline with
  | None => raise (HTTPException 503 "RAG pipeline not initialized.")
  | Some p =>
      try_except
        (call_method p (query w (question request) (return_sources request)))
        (fun e => raise (HTTPException 500 (str e)))
  end.

(** [@track_metrics def query_question] *)
Definition query_question (request : QueryRequest) : M AppState Response :=
  Observability.track_metrics app_env set_app_env (query_question_body request).

Definition ingest_sources (request : IngestRequest) : M AppState IngestReport :=
  pipeline <- gets rag_pipeline ;;
  match pipeline with
  | None => raise (HTTPException 503 "RAG pipeline not initialized.")
  | Some p =>
      try_except
        (message <-
           (if replace_existing request then
              call_method p (create_vector_store w (request_sources request)) ;;;
              ret "Vector store replaced with new sources."
            else
              let current_sources := request_sources request in
              call_method p (create_vector_store w current_sources) ;;;
              ret "New sources added to existing vector store.") ;;
         ret {| status := "success";
                message := message;
                sources_processed := Z.of_nat (length (request_sources request));
                ingested_sources := request_sources request |})
        (fun e => raise (HTTPException 500 (str e)))
  end.

End Endpoints.

End Main.

(** ** Concrete collaborators for the examples *)

Module Scenario.

Import ProductionRAGPipeline Main.

(** Drops every tag [<...>] of a markup string: what [get_text] yields
    on markup made of plain text inside elements other than script and
    style, without entities or surrounding blanks. *)
Fixpoint strip_tags (in_tag : bool) (s : string) : string :=
  match s with
  | EmptyString => EmptyString
  | String c s' =>
      if Ascii.eqb c "<" then strip_tags true s'
      else if Ascii.eqb c ">" then strip_tags false s'
      else if in_tag then strip_tags in_tag s'
      else String c (strip_tags in_tag s')
  end.

(** [validators.url] accepts a fixed list of schemes that has no [s3];
    the examples only need the web schemes. *)
Definition web_scheme (s : string) : bool :=
  Str.startswith "http://" s || Str.startswith "https://" s.

(** A string of [n] copies of the letter a. *)
Definition letters (n : N) : string :=
  N.iter n (String "a") EmptyString.

(** A world with every service up, but for the choices left open:
    whether AWS credentials are set, what the web answers, what the PDF
    reader finds and whether the embedding provider works. *)
Definition world (aws : bool) (web : string -> result string)
    (pdf : string -> result (list string)) (embed : list string -> result unit)
  : World :=
  {| getenv := fun name =>
       if aws && (String.eqb name "AWS_ACCESS_KEY_ID"
                  || String.eqb name "AWS_SECRET_ACCESS_KEY")
       then Some "secret" else None;
     cfg_chunk_size := 1000;
     cfg_chunk_overlap := 200;
     cfg_top_k := 3;
     boto3_client := Ok Boto3Client;
     head_bucket := fun _ _ => Ok tt;
     s3_download := fun _ _ => Ok "bytes of the object";
     validators_url := web_scheme;
     requests_get := web;
     soup_get_text := strip_tags false;
     pdf_pages := pdf;
     utf8_decode := fun b => Ok b;
     temp_name := fun _ => "/tmp/tmpk3x9.tmp";
     split_text := fun _ _ content =>
       Ok (if Str.truthy content then [content] else []);
     embed_documents := embed;
     similarity_search := fun store _ k => Ok (take (Z.to_nat k) (docstore store));
     load_qa_chain := fun key prompt =>
       Ok {| chain_prompt := prompt; chain_api_key := key |};
     chain_run := fun _ _ _ => Ok ("I don't know", 42, 0%Q) |}.

Definition web_down (url : string) : result string :=
  Raise (RequestException ("Connection refused: " ++ url)).

Definition web_page (url : string) : result string :=
  Ok "<p>dogs bark</p>".

Definition pdf_broken (b : string) : result (list string) :=
  Raise (LibraryError "EOF marker not found").

Definition embed_up (texts : list string) : result unit := Ok tt.

Definition embed_down (texts : list string) : result unit :=
  Raise (LibraryError "Embedding request failed").

(** The usual deployment of the examples: no credentials, the web down. *)
Definition offline : World := world false web_down pdf_broken embed_up.

(** No credentials, and a page of 9,995 letters in one paragraph
    element: a body of 10,002 characters. *)
Definition long_page : string := "<p>" ++ letters 9995 ++ "</p>".
Definition long_page_world : World :=
  world false (fun _ => Ok long_page) pdf_broken embed_up.

(** No credentials, and a page of 10,001 letters. *)
Definition longer_page : string := "<p>" ++ letters 10001 ++ "</p>".
Definition longer_page_world : World :=
  world false (fun _ => Ok longer_page) pdf_broken embed_up.

(** Credentials set and the bucket reachable; the PDF reader rejects
    what it is given. *)
Definition s3_world : World := world true web_down pdf_broken embed_up.

(** The loader that [InformationLoader()] builds in world [w]. *)
Definition loader (w : World) : InformationLoader.t :=
  InformationLoader.__init__ w true "./cache".

Definition no_metrics : Metrics :=
  {| QUERY_COUNT := 0; QUERY_LATENCY := []; QUERY_ERRORS := 0;
     TOKENS_USED := 0; VECTOR_STORE_SIZE := 0 |}.

Definition fresh_env : Env :=
  {| clock := 0; fs := ∅; metrics := no_metrics |}.

(** A pipeline right after construction in world [w]. *)
Definition fresh (w : World) : PState :=
  {| self := ProductionRAGPipeline.__init__ w "sk-test"; env := fresh_env |}.

(** The application after [startup_event] without default sources. *)
Definition started (w : World) : AppState :=
  {| rag_pipeline := Some (ProductionRAGPipeline.__init__ w "sk-test");
     app_env := fresh_env |}.

(** The embedding provider down. *)
Definition embed_down_world : World := world false web_down pdf_broken embed_down.

(** The web up. *)
Definition online : World := world false web_page pdf_broken embed_up.

Definition cats : string := "raw text about cats".
Definition birds : string := "raw text about birds".
Definition dogs_url : string := "https://example.com/dogs".

(** A pipeline after a successful ingestion of two raw texts. *)
Definition indexed : PState :=
  snd (create_vector_store offline [cats; birds] (fresh offline)).

(** The same pipeline once [_create_qa_chain] has been called on its own,
    as [get_qa_chain_legacy] does. *)
Definition ready : PState := snd (_create_qa_chain offline indexed).

Definition no_response : Response :=
  {| answer := EmptyString; processing_time := 0; tokens_used := 0;
     cost_estimate := 0%Q; sources := None |}.

(** The response of a query with attribution on [ready]. *)
Definition ready_response : Response :=
  match fst (query offline "What do cats eat?" true ready) with
  | Ok response => response
  | Raise _ => no_response
  end.

(** The ingest request of the design document's scenario. *)
Definition cats_and_dogs : IngestRequest :=
  {| request_sources := [cats; dogs_url]; replace_existing := true |}.

Definition cats_and_dogs_report : IngestReport :=
  {| status := "success";
     message := "Vector store replaced with new sources.";
     sources_processed := 2;
     ingested_sources := [cats; dogs_url] |}.

End Scenario.

(** ** Vocabulary of the design document *)

Module Design.

Import ProductionRAGPipeline.

(** The marker that the web branch appends to a truncated text. *)
Definition truncation_marker : string := "... [truncated]".

(** [NotReadyError]: the exception of a query on a pipeline without
    index or chain. *)
Definition NotReadyError : exn := ValueError not_ready_message.

(** [EmptyBatchError]: the exception of an ingestion that accumulated no
    chunk. *)
Definition EmptyBatchError : exn := ValueError empty_batch_message.

(** The two failures of an ingestion call that the design names, with the
    exception each one surfaces as: the loop over the sources left no
    chunk, or it left some and building the index from them raised. *)
Inductive build_failure (w : World) (sources_list : list string) (st : PState)
  : exn -> Prop :=
| empty_batch (metadatas : list (gmap string meta_value)) (st1 : PState) :
    for_sources w sources_list ([], []) st = (Ok ([], metadatas), st1) ->
    build_failure w sources_list st EmptyBatchError
| index_build (texts : list string) (metadatas : list (gmap string meta_value))
    (st1 : PState) (e : exn) :
    for_sources w sources_list ([], []) st = (Ok (texts, metadatas), st1) ->
    texts <> [] ->
    FAISS_from_texts w texts metadatas = Raise e ->
    build_failure w sources_list st e.

(** The sources of a batch whose turn of the loop ended in the [except]
    branch, in the order of the batch. *)
Fixpoint failed_sources (w : World) (sources_list : list string)
    (acc : list string * list (gmap string meta_value)) (st : PState)
  : list string :=
  match sources_list with
  | [] => []
  | source :: rest =>
      let failed := negb (is_ok (fst (process_source_body w source acc st))) in
      match process_source w source acc st with
      | (Ok acc', st') =>
          ((if failed then [source] else []) ++ failed_sources w rest acc' st')%list
      | (Raise _, _) => [source]
      end
  end.

(** The three query metrics that the decorator maintains. *)
Definition query_metrics (m : Metrics) : Z * Z * nat :=
  (QUERY_COUNT m, QUERY_ERRORS m, length (QUERY_LATENCY m)).

End Design.

Import Design.

(** ** [information_loader.py]: the upload and download helpers *)

Module StorageHelpers.

Import InformationLoader.

(** [s3_client.upload_file(file_path, bucket, key)] on the bytes of the
    local file: the one storage call that [World] does not hold. *)
Record Uploads : Type := mkUploads {
  s3_upload : string -> string -> string -> result unit
}.



Section Methods.
Variable w : World.
Variable u : Uploads.



End Methods.

End StorageHelpers.

(** ** [rag_pipeline.py]: the legacy functions *)

Module Legacy.

Import ProductionRAGPipeline.

Section Functions.
Variable w : World.




(** [similarity_search(question)] uses the default [k=4]; the chain runs
    outside any callback and only its answer is returned. *)
Definition query_vector_store_legacy (store : FAISS) (chain : QAChain)
    (question : string) : result string :=
  match similarity_search w store question 4 with
  | Ok docs =>
      match chain_run w chain docs question with
      | Ok run => Ok (fst (fst run))
      | Raise x => Raise x
      end
  | Raise x => Raise x
  end.

End Functions.

End Legacy.

(** ** [main.py]: startup and health *)

Module App.

Import ProductionRAGPipeline Main.

(** What [main.py] reads of [config.yaml]: [CONFIG['application']['name']],
    [CONFIG['pdf'].get('file_path')] and
    [CONFIG.get('sources', {}).get('web', [])]. *)
Record AppConfig : Type := mkAppConfig {
  application_name : string;
  pdf_file_path : option string;
  web_sources : list string
}.

(** The two module globals and the process environment. *)
Record Globals : Type := mkGlobals {
  app : AppState;
  information_loader : option InformationLoader.t
}.

Definition set_app (a : AppState) (g : Globals) : Globals :=
  {| app := a; information_loader := information_loader g |}.

(** [information_loader = v] *)
Definition assign_information_loader (v : option InformationLoader.t)
    (g : Globals) : Globals :=
  {| app := app g; information_loader := v |}.

(** [rag_pipeline = v] *)
Definition assign_rag_pipeline (v : option ProductionRAGPipeline.t)
    (g : Globals) : Globals :=
  {| app := {| rag_pipeline := v; app_env := app_env (app g) |};
     information_loader := information_loader g |}.

Record HealthResponse : Type := mkHealthResponse {
  health_status : string;
  service : string;
  vector_store_initialized : bool;
  (* datetime.now(timezone.utc), as a reading of the clock *)
  timestamp : Z
}.

Definition missing_key_message : string :=
  "OPENAI_API_KEY is required. Set it in the environment variables.".

Section Handlers.
Variable w : World.
Variable cfg : AppConfig.

Definition startup_event : M Globals unit :=
  let openai_api_key := getenv w "OPENAI_API_KEY" in
  if InformationLoader.env_missing openai_api_key then
    raise (ValueError missing_key_message)
  else
    let key := default EmptyString openai_api_key in
    let pipeline := ProductionRAGPipeline.__init__ w key in
    modify (assign_information_loader
              (Some (InformationLoader.__init__ w true "./cache"))) ;;;
    modify (assign_rag_pipeline (Some pipeline)) ;;;
    found <- (match pdf_file_path cfg with
              | Some pdf_path =>
                  if Str.truthy pdf_path then
                    zoom app set_app
                      (zoom app_env set_app_env
                         (InformationLoader.path_exists pdf_path))
                  else ret false
              | None => ret false
              end) ;;
    let default_sources :=
      ((if found then [default EmptyString (pdf_file_path cfg)] else [])
       ++ web_sources cfg)%list in
    match default_sources with
    | [] => ret tt
    | _ :: _ =>
        try_except
          (zoom app set_app
             (call_method pipeline (create_vector_store w default_sources)))
          (fun _ => ret tt)
    end.

Definition health_check : M AppState HealthResponse :=
  pipeline <- gets rag_pipeline ;;
  let vector_initialized :=
    match pipeline with
    | Some p => bool_decide (is_Some (vector_store p))
    | None => false
    end in
  now <- zoom app_env set_app_env time_time ;;
  ret {| health_status := if vector_initialized then "healthy" else "degraded";
         vector_store_initialized := vector_initialized;
         service := application_name cfg;
         timestamp := now |}.

End Handlers.

End App.

(** ** Invariants of the ingestion and helpers of the statements *)

Module Invariants.

Import ProductionRAGPipeline.

(** [c in s] for a character. *)
Fixpoint contains (c : ascii) (s : string) : bool :=
  match s with
  | EmptyString => false
  | String d s' => Ascii.eqb d c || contains c s'
  end.

(** The metadata at position [i] of a batch over [sources_list]: the
    position as [chunk_index], and a source of the batch with its kind. *)
Definition chunk_tagged (sources_list : list string) (i : nat)
    (m : gmap string meta_value) : Prop :=
  m !! "chunk_index" = Some (MInt (Z.of_nat i))
  /\ exists source,
       In source sources_list
       /\ m !! "source" = Some (MStr source)
       /\ m !! "source_type" = Some (MStr (get_source_type source)).

(** The two lists of a batch grow together and every metadata is the one
    of its position. *)
Definition batch_ok (sources_list : list string)
    (acc : list string * list (gmap string meta_value)) : Prop :=
  length (fst acc) = length (snd acc)
  /\ forall (i : nat) (m : gmap string meta_value),
       snd acc !! i = Some m -> chunk_tagged sources_list i m.

(** The environment after one reading of the clock. *)
Definition tick (e : Env) : Env := snd (time_time e).

End Invariants.

Import Invariants.

(** ** [main.py]: the configuration view *)

Module Config.

(** A value inside a section of [config.yaml]. *)
Inductive cfg_value : Type :=
| CStr (s : string)
| CNum (q : Q)
| CList (l : list string).

(** The dict [CONFIG] as the sources use it: every top-level key holds a
    section, which is a dict object of its own. The objects live in a
    heap, and a dict that holds a section holds its address. *)
Record Store : Type := mkStore {
  CONFIG : gmap string nat;
  heap : gmap nat (gmap string cfg_value)
}.

(** [d[section][key]] for a top-level dict [d] read in store [s]. *)
Definition read (s : Store) (d : gmap string nat) (section key : string)
  : option cfg_value :=
  match d !! section with
  | Some a =>
      match heap s !! a with
      | Some entries => entries !! key
      | None => None
      end
  | None => None
  end.

(** [show_config]: [CONFIG.copy()] is a new top-level dict with the same
    section objects, and the assignment goes through the section that the
    copy shares with [CONFIG]. An address outside the heap does not
    occur. *)
Definition show_config : M Store (gmap string nat) :=
  fun s =>
    let safe_config := CONFIG s in
    match safe_config !! "pdf" with
    | Some a =>
        match heap s !! a with
        | Some entries =>
            if bool_decide (is_Some (entries !! "file_path")) then
              (Ok safe_config,
               {| CONFIG := CONFIG s;
                  heap := <[a := <["file_path" := CStr "REDACTED"]> entries]> (heap s) |})
            else (Ok safe_config, s)
        | None => (Ok safe_config, s)
        end
    | None => (Ok safe_config, s)
    end.

End Config.

(** ** Concrete inputs for the further properties *)

Module Cases.

Import ProductionRAGPipeline Main App Scenario.

(** No credentials, and a PDF reader that finds two pages without
    text. *)
Definition blank_pdf_world : World :=
  world false web_down (fun _ => Ok [EmptyString; EmptyString]) embed_up.

(** An environment with one scanned PDF on disk. *)
Definition scan_env : Env :=
  {| clock := 0; fs := {["scan.pdf" := "%PDF-1.7"]}; metrics := no_metrics |}.


Definition app_config : AppConfig :=
  {| application_name := "Information Hub";
     pdf_file_path := Some "data/handbook.pdf";
     web_sources := [dogs_url] |}.

(** A configuration of three sections. *)
Definition config_store : Config.Store :=
  {| Config.CONFIG := {["application" := 0%nat; "pdf" := 1%nat; "rag" := 2%nat]};
     Config.heap :=
       {[0%nat := {["name" := Config.CStr "Information Hub"]};
         1%nat := {["file_path" := Config.CStr "data/handbook.pdf"]};
         2%nat := {["chunk_size" := Config.CNum 1000%Q]}]} |}.

End Cases.

(** * Properties *)

(** ** Strings *)

Section StringFacts.

Lemma length_take (n : nat) (s : string) :
  String.length (Str.take n s) = Nat.min n (String.length s).
Proof.
  revert s. induction n as [|n IH]; intros [|c s]; simpl; auto.
Qed.

Lemma append_cons (c : ascii) (s1 s2 : string) :
  (String c s1 ++ s2)%string = String c (s1 ++ s2)%string.
Proof. reflexivity. Qed.

Lemma append_nil (s : string) : (EmptyString ++ s)%string = s.
Proof. reflexivity. Qed.

Lemma take_drop (n : nat) (s : string) :
  (Str.take n s ++ Str.drop n s)%string = s.
Proof.
  revert s. induction n as [|n IH]; intros [|c s]; simpl;
    rewrite ?append_nil, ?append_cons, ?IH; reflexivity.
Qed.

Lemma length_append (s1 s2 : string) :
  String.length (s1 ++ s2)%string = (String.length s1 + String.length s2)%nat.
Proof.
  induction s1 as [|c s1 IH]; rewrite ?append_nil, ?append_cons; simpl; auto.
Qed.

(** [s[:n]] has [n] characters as soon as [s] has that many. *)
Lemma len_slice_to (n : Z) (s : string) :
  0 <= n <= Str.len s -> Str.len (Str.slice_to n s) = n.
Proof.
  unfold Str.len, Str.slice_to. intros [Hn Hs].
  rewrite length_take. lia.
Qed.

Lemma len_slice_to_le (n : Z) (s : string) :
  0 <= n -> Str.len (Str.slice_to n s) <= n.
Proof.
  unfold Str.len, Str.slice_to. intros Hn.
  rewrite length_take. lia.
Qed.

Lemma len_append (s1 s2 : string) :
  Str.len (s1 ++ s2)%string = Str.len s1 + Str.len s2.
Proof.
  unfold Str.len. rewrite length_append. lia.
Qed.

(** [s[:n]] is a prefix of [s]. *)
Lemma slice_to_prefix (n : Z) (s : string) :
  exists rest, s = (Str.slice_to n s ++ rest)%string.
Proof.
  exists (Str.drop (Z.to_nat n) s). unfold Str.slice_to.
  now rewrite take_drop.
Qed.

End StringFacts.

(** ** The source loader *)

Section LoaderFacts.

Variable w : World.

Import InformationLoader.

(** The outcome of the web branch, for a page that was fetched. *)
Lemma load_from_web_fetched (url body : string) (e : Env) :
  requests_get w url = Ok body ->
  _load_from_web w url e =
    (Ok (let text := soup_get_text w body in
         if 10000 <? Str.len text
         then (Str.slice_to 10000 text ++ truncation_marker)%string
         else text), e).
Proof.
  intros Hget. unfold _load_from_web, try_except, bind, lift_result, ret.
  now rewrite Hget.
Qed.

(** The dispatch reaches the web branch for a valid URL that is not an
    enabled object-storage URI. *)
Lemma load_information_web (self : t) (url : string) (e : Env) :
  Str.startswith "s3://" url && use_s3 self = false ->
  validators_url w url = true ->
  load_information w self url e = _load_from_web w url e.
Proof.
  intros Hs3 Hurl. unfold load_information, try_except.
  rewrite Hs3, Hurl.
  destruct (_load_from_web w url e) as [[a|x] e']; reflexivity.
Qed.

(** C9: a string that is not an enabled object-storage URI, not a valid
    URL, does not end in the PDF suffix and is not an existing path is
    returned by [load_information] unchanged, without an exception and
    without any effect on the environment. *)
Theorem load_information_raw_text_identity (self : t) (s : string) (e : Env) :
  Str.startswith "s3://" s && use_s3 self = false ->
  validators_url w s = false ->
  Str.endswith ".pdf" s = false ->
  fs e !! s = None ->
  load_information w self s e = (Ok s, e).
Proof.
  intros Hs3 Hurl Hpdf Hfile.
  unfold load_information, try_except, bind, path_exists, gets, ret.
  rewrite Hs3, Hurl, Hpdf, Hfile.
  rewrite bool_decide_eq_false_2; [reflexivity|].
  intros [x Hx]. discriminate.
Qed.

(** C7, amended: the limit is measured on the text extracted from the
    page. When that text has more than 10,000 characters, the loader
    returns its first 10,000 characters followed by the truncation
    marker; otherwise it returns the extracted text itself. *)
Theorem load_web_truncates_extracted_text (self : t) (url body : string) (e : Env) :
  Str.startswith "s3://" url && use_s3 self = false ->
  validators_url w url = true ->
  requests_get w url = Ok body ->
  exists out kept,
    load_information w self url e = (Ok out, e) /\
    (exists rest, soup_get_text w body = (kept ++ rest)%string) /\
    (10000 < Str.len (soup_get_text w body) ->
       Str.len kept = 10000 /\ out = (kept ++ truncation_marker)%string) /\
    (Str.len (soup_get_text w body) <= 10000 ->
       out = soup_get_text w body).
Proof.
  intros Hs3 Hurl Hget.
  rewrite (load_information_web self url e Hs3 Hurl).
  rewrite (load_from_web_fetched url body e Hget). cbv zeta.
  set (text := soup_get_text w body).
  eexists. exists (Str.slice_to 10000 text).
  split; [reflexivity|].
  split; [apply slice_to_prefix|].
  split; intros Hlen.
  - apply Z.ltb_lt in Hlen as Hb. rewrite Hb. split; [|reflexivity].
    apply len_slice_to. lia.
  - destruct (10000 <? Str.len text) eqn:Hb; [|reflexivity].
    apply Z.ltb_lt in Hb. lia.
Qed.

(** When [_load_from_s3] returns, the temporary copy is gone. *)
Lemma load_from_s3_success_unlinks (self : t) (uri content : string) (e e' : Env) :
  _load_from_s3 w self uri e = (Ok content, e') ->
  fs e' !! temp_name w (fs e) = None.
Proof.
  unfold _load_from_s3.
  destruct (negb (use_s3 self) || negb (bool_decide (is_Some (s3_client self))));
    [discriminate|].
  destruct (Str.split_once "/" (Str.drop 5 uri)) as [|bucket [|key [|? ?]]];
    try discriminate.
  unfold try_except, bind, gets, modify, lift_result, ret, raise.
  destruct (s3_download w bucket key) as [b|x]; [|discriminate].
  destruct (if Str.endswith ".pdf" key then _ else _) as [[c|x] e1] eqn:Hload;
    [|discriminate].
  intros [= _ <-]. simpl. apply lookup_delete_eq.
Qed.

(** The two extractors read the file system and leave it as it is. *)
Lemma load_from_pdf_env (file_path : string) (e : Env) :
  snd (_load_from_pdf w file_path e) = e.
Proof.
  unfold _load_from_pdf, try_except, bind, read_bytes, lift_result, ret, raise.
  destruct (fs e !! file_path) as [b|]; [|reflexivity].
  destruct (pdf_pages w b); reflexivity.
Qed.

Lemma load_from_local_file_env (file_path : string) (e : Env) :
  snd (_load_from_local_file w file_path e) = e.
Proof.
  unfold _load_from_local_file, try_except, bind, read_bytes, lift_result, raise.
  destruct (fs e !! file_path) as [b|]; [|reflexivity].
  destruct (utf8_decode w b); reflexivity.
Qed.

(** When [_load_from_s3] has downloaded the object and raises, the
    temporary copy is still there, with the downloaded bytes. *)
Lemma load_from_s3_failure_keeps_copy (self : t) (uri bucket key b : string)
    (e e' : Env) (x : exn) :
  Str.split_once "/" (Str.drop 5 uri) = [bucket; key] ->
  s3_download w bucket key = Ok b ->
  _load_from_s3 w self uri e = (Raise x, e') ->
  negb (use_s3 self) || negb (bool_decide (is_Some (s3_client self))) = false ->
  fs e' !! temp_name w (fs e) = Some b.
Proof.
  intros Hsplit Hdown Hrun Hguard. revert Hrun.
  unfold _load_from_s3. rewrite Hguard, Hsplit.
  unfold try_except, bind, gets, modify, lift_result, ret, raise.
  rewrite Hdown.
  set (e1 := set_fs (insert (temp_name w (fs e)) b)
               (set_fs (insert (temp_name w (fs e)) EmptyString) e)).
  assert (Hcopy : fs e1 !! temp_name w (fs e) = Some b)
    by (unfold e1; simpl; apply lookup_insert_eq).
  destruct (Str.endswith ".pdf" key).
  - pose proof (load_from_pdf_env (temp_name w (fs e)) e1) as Henv.
    destruct (_load_from_pdf w _ e1) as [[c|y] e2]; [discriminate|].
    simpl in Henv. subst e2. intros [= _ <-]. exact Hcopy.
  - pose proof (load_from_local_file_env (temp_name w (fs e)) e1) as Henv.
    destruct (_load_from_local_file w _ e1) as [[c|y] e2]; [discriminate|].
    simpl in Henv. subst e2. intros [= _ <-]. exact Hcopy.
Qed.

End LoaderFacts.

(** ** The source loader on concrete inputs *)

Import InformationLoader Scenario.

(** Without credentials the constructor disables the storage backend. *)
Example offline_loader_disabled :
  use_s3 (loader offline) = false /\ s3_client (loader offline) = None.
Proof. split; reflexivity. Qed.

Lemma load_information_raw_text_identity_witness :
  load_information offline (loader offline) "raw text about cats" fresh_env
  = (Ok "raw text about cats", fresh_env).
Proof.
  apply (load_information_raw_text_identity offline (loader offline)
           "raw text about cats" fresh_env); vm_compute; reflexivity.
Defined.

(** C2 on the code: with the storage backend disabled, an object-storage
    URI that is no PDF key and names no local file comes back as its own
    content. *)
Theorem s3_uri_with_storage_disabled_is_raw_text :
  use_s3 (loader offline) = false
  /\ Str.startswith "s3://" "s3://bucket/notes.txt" = true
  /\ load_information offline (loader offline) "s3://bucket/notes.txt" fresh_env
     = (Ok "s3://bucket/notes.txt", fresh_env).
Proof. repeat split; vm_compute; reflexivity. Qed.

(** With the backend disabled an object-storage URI of a PDF key reaches
    the PDF branch, which fails on the missing file. *)
Example s3_pdf_uri_with_storage_disabled_raises :
  fst (load_information offline (loader offline) "s3://bucket/report.pdf" fresh_env)
  = Raise (OSError "No such file or directory: s3://bucket/report.pdf").
Proof. vm_compute; reflexivity. Qed.

(** C6 on the code: the object is downloaded, extraction of the
    temporary copy raises, and the copy is still there afterwards. *)
Theorem s3_extraction_failure_leaves_temporary_copy :
  use_s3 (loader s3_world) = true
  /\ fs fresh_env !! "/tmp/tmpk3x9.tmp" = None
  /\ fst (load_information s3_world (loader s3_world)
            "s3://pj-rag-2026/report.pdf" fresh_env)
     = Raise (LibraryError "EOF marker not found")
  /\ fs (snd (load_information s3_world (loader s3_world)
                "s3://pj-rag-2026/report.pdf" fresh_env)) !! "/tmp/tmpk3x9.tmp"
     = Some "bytes of the object".
Proof. repeat split; vm_compute; reflexivity. Qed.

(** The same load of a text key succeeds and removes the copy. *)
Example s3_text_load_removes_temporary_copy :
  load_information s3_world (loader s3_world) "s3://pj-rag-2026/notes.txt" fresh_env
  = (Ok "bytes of the object", fresh_env).
Proof. vm_compute; reflexivity. Qed.

(** C7 as stated fails: a body of 10,002 characters whose extracted text
    has 9,995 is returned whole and without the marker. *)
Lemma web_body_over_limit_returned_unmarked :
  10000 < Str.len long_page
  /\ fst (load_information long_page_world (loader long_page_world)
            "https://example.com/long" fresh_env)
     = Ok (letters 9995)
  /\ soup_get_text long_page_world long_page = letters 9995
  /\ letters 9995
     <> (Str.slice_to 10000 (letters 9995) ++ truncation_marker)%string.
Proof.
  split; [vm_compute; reflexivity|].
  split; [vm_compute; reflexivity|].
  split; [vm_compute; reflexivity|].
  intros H. apply (f_equal Str.len) in H. vm_compute in H. discriminate.
Qed.

Lemma load_web_truncates_extracted_text_witness :
  exists out kept,
    load_information longer_page_world (loader longer_page_world)
      "https://example.com/longer" fresh_env = (Ok out, fresh_env)
    /\ (exists rest, letters 10001 = (kept ++ rest)%string)
    /\ (10000 < Str.len (letters 10001) ->
          Str.len kept = 10000 /\ out = (kept ++ truncation_marker)%string)
    /\ (Str.len (letters 10001) <= 10000 -> out = letters 10001).
Proof.
  apply (load_web_truncates_extracted_text longer_page_world
           (loader longer_page_world) "https://example.com/longer"
           longer_page fresh_env); vm_compute; reflexivity.
Defined.

(** ** The pipeline: ingestion *)

Section IngestionFacts.

Variable w : World.

Import ProductionRAGPipeline.

(** A turn of the loop never raises and does not touch the instance. *)
Lemma process_source_total (source : string)
    (acc : list string * list (gmap string meta_value)) (st : PState) :
  exists acc' e', process_source w source acc st = (Ok acc', mkPState (self st) e').
Proof.
  unfold process_source, process_source_body, try_except, bind, gets, zoom,
    lift_result, ret, set_env.
  destruct (InformationLoader.load_information w _ source (env st)) as [[c|x] e1];
    simpl; [|eauto].
  destruct (split_text w _ _ c) as [texts|x]; simpl; eauto.
Qed.

Lemma for_sources_total (sources_list : list string)
    (acc : list string * list (gmap string meta_value)) (st : PState) :
  exists acc' e',
    for_sources w sources_list acc st = (Ok acc', mkPState (self st) e').
Proof.
  revert acc st. induction sources_list as [|source rest IH]; intros acc st.
  - exists acc, (env st). destruct st; reflexivity.
  - simpl. unfold bind.
    destruct (process_source_total source acc st) as (acc1 & e1 & ->).
    apply (IH acc1 (mkPState (self st) e1)).
Qed.

Lemma for_sources_self (sources_list : list string)
    (acc acc' : list string * list (gmap string meta_value)) (st st' : PState) :
  for_sources w sources_list acc st = (Ok acc', st') -> self st' = self st.
Proof.
  destruct (for_sources_total sources_list acc st) as (a & e & ->).
  intros [= _ <-]. reflexivity.
Qed.

(** C3: an ingestion call that fails because the batch left no chunk, or
    because building the index from the chunks raised, ends with that
    exception and with the vector store of the pipeline as it was before
    the call. *)
Theorem create_vector_store_failure_keeps_index (sources_list : list string)
    (st : PState) (e : exn) :
  build_failure w sources_list st e ->
  exists st',
    create_vector_store w sources_list st = (Raise e, st')
    /\ vector_store (self st') = vector_store (self st).
Proof.
  intros [metadatas st1 Hloop | texts metadatas st1 x Hloop Hne Hbuild];
    pose proof (for_sources_self _ _ _ _ _ Hloop) as Hself;
    unfold create_vector_store, bind; rewrite Hloop; simpl.
  - exists st1. unfold raise. split; [reflexivity|]. now rewrite Hself.
  - destruct texts as [|chunk texts]; [contradiction|].
    unfold zoom, lift_result, Observability.VECTOR_STORE_SIZE_set, modify.
    rewrite Hbuild. eexists. split; [reflexivity|].
    simpl. now rewrite Hself.
Qed.

(** A call of [create_vector_store] that returns leaves an index in place
    and no chain: the value of [_create_qa_chain], which is [None], is
    assigned over the chain that the method has just stored. *)
Lemma create_vector_store_returns_without_chain (sources_list : list string)
    (st st' : PState) (u : unit) :
  create_vector_store w sources_list st = (Ok u, st') ->
  is_Some (vector_store (self st')) /\ qa_chain (self st') = None.
Proof.
  unfold create_vector_store, bind.
  destruct (for_sources_total sources_list ([], []) st) as ([texts metas] & e1 & ->).
  simpl. destruct texts as [|chunk texts]; [discriminate|].
  unfold zoom, lift_result, Observability.VECTOR_STORE_SIZE_set, modify,
    _create_qa_chain, bind, gets, lift_result, ret.
  destruct (FAISS_from_texts w (chunk :: texts) metas) as [store|x]; [|discriminate].
  simpl. destruct (load_qa_chain w _ _) as [chain|x]; [|discriminate].
  simpl. intros [= _ <-]. simpl. split; [eexists; reflexivity | reflexivity].
Qed.

(** A call of [create_vector_store] that raises does so for one of the
    two failures above or because the chain could not be created. *)
Lemma create_vector_store_raises (sources_list : list string)
    (st st' : PState) (e : exn) :
  create_vector_store w sources_list st = (Raise e, st') ->
  build_failure w sources_list st e
  \/ load_qa_chain w (openai_api_key (self st)) prompt_template = Raise e.
Proof.
  unfold create_vector_store, bind.
  destruct (for_sources_total sources_list ([], []) st)
    as ([texts metas] & e1 & Hloop).
  rewrite Hloop. simpl. destruct texts as [|chunk texts].
  - unfold raise. intros [= <- _]. left. eapply empty_batch. exact Hloop.
  - unfold zoom, lift_result, Observability.VECTOR_STORE_SIZE_set, modify,
      _create_qa_chain, bind, gets, lift_result, ret.
    destruct (FAISS_from_texts w (chunk :: texts) metas) as [store|x] eqn:Hbuild.
    + simpl. destruct (load_qa_chain w _ _) as [chain|x] eqn:Hchain;
        [discriminate|].
      intros [= <- _]. right. reflexivity.
    + intros [= <- _]. left.
      eapply index_build; [exact Hloop | discriminate | exact Hbuild].
Qed.

(** The gauge is set before the index is built: when the build raises,
    the gauge holds the size of the batch that was not installed. *)
Lemma index_build_failure_sets_gauge (sources_list texts : list string)
    (metadatas : list (gmap string meta_value)) (st st1 : PState) (e : exn) :
  for_sources w sources_list ([], []) st = (Ok (texts, metadatas), st1) ->
  texts <> [] ->
  FAISS_from_texts w texts metadatas = Raise e ->
  VECTOR_STORE_SIZE (metrics (env (snd (create_vector_store w sources_list st))))
  = Z.of_nat (length texts).
Proof.
  intros Hloop Hne Hbuild. unfold create_vector_store, bind.
  rewrite Hloop. simpl. destruct texts as [|chunk texts]; [contradiction|].
  unfold zoom, lift_result, Observability.VECTOR_STORE_SIZE_set, modify.
  rewrite Hbuild. reflexivity.
Qed.

End IngestionFacts.

(** ** The pipeline: query *)

Section QueryFacts.

Variable w : World.

Import ProductionRAGPipeline.

(** A query on a pipeline that lacks the index or the chain fails as not
    ready. *)
Lemma query_not_ready (question : string) (return_sources : bool) (st : PState) :
  vector_store (self st) = None \/ qa_chain (self st) = None ->
  fst (query w question return_sources st) = Raise NotReadyError.
Proof.
  intros H. unfold query, bind, zoom, time_time, gets. simpl.
  destruct (vector_store (self st)) as [store|], (qa_chain (self st)) as [chain|];
    try reflexivity.
  destruct H; discriminate.
Qed.

(** Hence a query that follows a successful [create_vector_store] still
    fails as not ready. *)
Lemma query_after_create_vector_store (sources_list : list string)
    (question : string) (return_sources : bool) (st st' : PState) (u : unit) :
  create_vector_store w sources_list st = (Ok u, st') ->
  fst (query w question return_sources st') = Raise NotReadyError.
Proof.
  intros H. apply query_not_ready. right.
  apply (create_vector_store_returns_without_chain w _ _ _ _ H).
Qed.

Lemma preview_short (content : string) :
  Str.len content <= 200 -> preview content = content.
Proof.
  intros H. unfold preview.
  destruct (200 <? Str.len content) eqn:Hb; [|reflexivity].
  apply Z.ltb_lt in Hb. lia.
Qed.

Lemma preview_long (content : string) :
  200 < Str.len content ->
  exists kept rest,
    content = (kept ++ rest)%string /\ Str.len kept = 200
    /\ preview content = (kept ++ "...")%string.
Proof.
  intros H. unfold preview. apply Z.ltb_lt in H as Hb. rewrite Hb.
  destruct (slice_to_prefix 200 content) as [rest Hrest].
  exists (Str.slice_to 200 content), rest.
  split; [exact Hrest|]. split; [|reflexivity].
  apply len_slice_to. lia.
Qed.

Lemma preview_len (content : string) : Str.len (preview content) <= 203.
Proof.
  unfold preview. destruct (200 <? Str.len content) eqn:Hb.
  - rewrite len_append.
    pose proof (len_slice_to_le 200 content ltac:(lia)) as Hle.
    change (Str.len "...") with 3. lia.
  - apply Z.ltb_ge in Hb. lia.
Qed.

(** What a query that returns has computed. *)
Lemma query_returns (question : string) (return_sources : bool)
    (st st' : PState) (response : Response) :
  query w question return_sources st = (Ok response, st') ->
  exists store chain docs,
    vector_store (self st) = Some store
    /\ qa_chain (self st) = Some chain
    /\ similarity_search w store question (cfg_top_k w) = Ok docs
    /\ sources response
       = if return_sources then Some (map source_info docs) else None.
Proof.
  unfold query, bind, zoom, time_time, gets. simpl.
  destruct (vector_store (self st)) as [store|] eqn:Hstore;
    [|discriminate].
  destruct (qa_chain (self st)) as [chain|] eqn:Hchain; [|discriminate].
  unfold try_except, bind, lift_result, zoom, ret, raise.
  destruct (similarity_search w store question (cfg_top_k w)) as [docs|x] eqn:Hdocs;
    [|discriminate].
  destruct (chain_run w chain docs question) as [[[ans tokens] cost]|x];
    [|discriminate].
  simpl. destruct (Observability.TOKENS_USED_inc tokens _) as [[u|x] e1];
    [|discriminate].
  simpl. intros [= <- _].
  exists store, chain, docs.
  split; [reflexivity|]. split; [reflexivity|]. split; [exact Hdocs|].
  destruct return_sources; reflexivity.
Qed.

(** C8: the response of a query that returns has a [sources] list exactly
    when the caller asked for it; the list has one entry per retrieved
    chunk, in retrieval order, with the chunk's source and kind; the
    preview of an entry is the chunk text when that has at most 200
    characters and otherwise its first 200 characters followed by the
    ellipsis, so at most 203 characters. *)
Theorem query_sources_follow_retrieved_chunks (question : string)
    (return_sources : bool) (st st' : PState) (response : Response) :
  query w question return_sources st = (Ok response, st') ->
  (is_Some (sources response) <-> return_sources = true)
  /\ forall entries : list SourceInfo,
       sources response = Some entries ->
       exists store docs,
         vector_store (self st) = Some store
         /\ similarity_search w store question (cfg_top_k w) = Ok docs
         /\ length entries = length docs
         /\ forall (i : nat) (doc : Document),
              docs !! i = Some doc ->
              exists entry,
                entries !! i = Some entry
                /\ source entry = metadata_get doc "source"
                /\ source_type entry = metadata_get doc "source_type"
                /\ (Str.len (page_content doc) <= 200 ->
                      content_preview entry = page_content doc)
                /\ (200 < Str.len (page_content doc) ->
                      exists kept rest,
                        page_content doc = (kept ++ rest)%string
                        /\ Str.len kept = 200
                        /\ content_preview entry = (kept ++ "...")%string)
                /\ Str.len (content_preview entry) <= 203.
Proof.
  intros Hq.
  destruct (query_returns _ _ _ _ _ Hq) as (store & chain & docs & Hs & _ & Hd & Hsrc).
  split.
  - rewrite Hsrc. destruct return_sources; split; intros H;
      try reflexivity; try discriminate; try (eexists; reflexivity).
    destruct H as [x Hx]; discriminate.
  - intros entries Hentries. exists store, docs.
    rewrite Hsrc in Hentries. destruct return_sources; [|discriminate].
    injection Hentries as <-.
    split; [exact Hs|]. split; [exact Hd|].
    split; [apply length_map|].
    intros i doc Hi. exists (source_info doc).
    split; [rewrite list_lookup_fmap, Hi; reflexivity|].
    split; [reflexivity|]. split; [reflexivity|].
    split; [apply preview_short|].
    split; [apply preview_long|apply preview_len].
Qed.

End QueryFacts.

(** ** The endpoints *)

Section EndpointFacts.

Variable w : World.

Import ProductionRAGPipeline Main Observability.

Lemma counter_inc_keeps_query_metrics (amount : Z) (e : Env) :
  query_metrics (metrics (snd (TOKENS_USED_inc amount e)))
  = query_metrics (metrics e).
Proof.
  unfold TOKENS_USED_inc, counter_inc.
  destruct (amount <? 0); reflexivity.
Qed.

(** [query] leaves the query counters and the latency histogram alone. *)
Lemma query_keeps_query_metrics (q : string) (rs : bool) (st : PState) :
  query_metrics (metrics (env (snd (query w q rs st))))
  = query_metrics (metrics (env st)).
Proof.
  unfold query, bind, zoom, time_time, gets. simpl.
  destruct (vector_store (self st)) as [store|]; [|reflexivity].
  destruct (qa_chain (self st)) as [chain|]; [|reflexivity].
  unfold try_except, bind, lift_result, zoom, ret, raise.
  destruct (similarity_search w store q (cfg_top_k w)) as [docs|x]; [|reflexivity].
  destruct (chain_run w chain docs q) as [[[ans tokens] cost]|x]; [|reflexivity].
  simpl.
  match goal with
  | |- context [TOKENS_USED_inc tokens ?e0] =>
      pose proof (counter_inc_keeps_query_metrics tokens e0) as Hinc;
      destruct (TOKENS_USED_inc tokens e0) as [[u|x] e1]
  end; simpl in *; exact Hinc.
Qed.

Lemma query_question_body_keeps_query_metrics (request : QueryRequest)
    (st : AppState) :
  query_metrics (metrics (app_env (snd (query_question_body w request st))))
  = query_metrics (metrics (app_env st)).
Proof.
  unfold query_question_body, bind, gets.
  destruct (rag_pipeline st) as [p|]; simpl; [|reflexivity].
  unfold try_except, call_method, raise.
  pose proof (query_keeps_query_metrics (question request) (return_sources request)
                {| self := p; env := app_env st |}) as Hq.
  destruct (query w (question request) (return_sources request) _) as [[r|x] ps];
    simpl in *; exact Hq.
Qed.

(** C10: every call of the decorated query endpoint adds exactly one
    observation to the latency histogram; a call that returns increments
    the query counter by one and leaves the error counter, a call that
    raises increments the error counter by one and leaves the query
    counter. *)
Theorem query_question_metrics (request : QueryRequest) (st : AppState) :
  length (QUERY_LATENCY (metrics (app_env (snd (query_question w request st)))))
  = S (length (QUERY_LATENCY (metrics (app_env st))))
  /\ match fst (query_question w request st) with
     | Ok _ =>
         QUERY_COUNT (metrics (app_env (snd (query_question w request st))))
         = QUERY_COUNT (metrics (app_env st)) + 1
         /\ QUERY_ERRORS (metrics (app_env (snd (query_question w request st))))
            = QUERY_ERRORS (metrics (app_env st))
     | Raise _ =>
         QUERY_ERRORS (metrics (app_env (snd (query_question w request st))))
         = QUERY_ERRORS (metrics (app_env st)) + 1
         /\ QUERY_COUNT (metrics (app_env (snd (query_question w request st))))
            = QUERY_COUNT (metrics (app_env st))
     end.
Proof.
  unfold query_question, track_metrics, bind, zoom, time_time, try_finally,
    try_except, QUERY_COUNT_inc, QUERY_ERRORS_inc, QUERY_LATENCY_observe,
    counter_inc, modify, ret, raise.
  simpl.
  match goal with
  | |- context [query_question_body w request ?s0] =>
      pose proof (query_question_body_keeps_query_metrics request s0) as Hk;
      destruct (query_question_body w request s0) as [[r|x] s1]
  end; simpl in *; unfold query_metrics in Hk; simpl in Hk;
    injection Hk as Hc He Hl; rewrite Hc, He, Hl; auto.
Qed.

(** C4, amended: [create_vector_store] returns no value, and the report
    of an ingest call that returns says "success", counts every source of
    the request as processed and lists every source of the request as
    ingested, whatever happened to each of them. *)
Theorem ingest_sources_report (request : IngestRequest) (st st' : AppState)
    (report : IngestReport) :
  ingest_sources w request st = (Ok report, st') ->
  (exists p, rag_pipeline st = Some p
     /\ fst (create_vector_store w (request_sources request)
               {| self := p; env := app_env st |}) = Ok tt)
  /\ status report = "success"
  /\ sources_processed report = Z.of_nat (length (request_sources request))
  /\ ingested_sources report = request_sources request.
Proof.
  unfold ingest_sources, bind, gets.
  destruct (rag_pipeline st) as [p|]; simpl; [|discriminate].
  unfold try_except, raise.
  destruct (replace_existing request); unfold bind, call_method, ret;
    destruct (create_vector_store w (request_sources request) _)
      as [[[]|x] ps] eqn:Hcall;
    simpl; try discriminate;
    intros [= <- _]; simpl;
    (split; [exists p; rewrite Hcall; split; reflexivity|]); auto.
Qed.

End EndpointFacts.

(** ** The pipeline and the endpoints on concrete inputs *)

Import ProductionRAGPipeline Main Scenario.

(** A query before any ingestion is not ready. *)
Example query_before_ingestion :
  fst (query offline "What do cats eat?" true (fresh offline)) = Raise NotReadyError.
Proof. vm_compute; reflexivity. Qed.

(** C1 on the code: the ingestion of one raw text returns and installs an
    index of one chunk, and the query that follows is still refused as
    not ready, because the pipeline holds no chain. *)
Theorem query_after_successful_ingestion_is_not_ready :
  fst (create_vector_store offline [cats] (fresh offline)) = Ok tt
  /\ (docstore <$> vector_store
        (self (snd (create_vector_store offline [cats] (fresh offline)))))
     = Some [mkDocument cats (chunk_metadata cats 0)]
  /\ qa_chain (self (snd (create_vector_store offline [cats] (fresh offline)))) = None
  /\ fst (query offline "What do cats eat?" true
            (snd (create_vector_store offline [cats] (fresh offline))))
     = Raise NotReadyError.
Proof. repeat split; vm_compute; reflexivity. Qed.

(** The same at the endpoints: ingest answers "success", then the query
    endpoint answers 500 with the not-ready message. *)
Example query_endpoint_after_ingest :
  fst (query_question offline {| question := "What do cats eat?"; return_sources := true |}
         (snd (ingest_sources offline cats_and_dogs (started offline))))
  = Raise (HTTPException 500 not_ready_message).
Proof. vm_compute; reflexivity. Qed.

Lemma create_vector_store_failure_keeps_index_witness :
  exists st',
    create_vector_store embed_down_world ["raw text about fish"] indexed
    = (Raise (LibraryError "Embedding request failed"), st')
    /\ vector_store (self st') = vector_store (self indexed).
Proof.
  apply (create_vector_store_failure_keeps_index embed_down_world
           ["raw text about fish"] indexed (LibraryError "Embedding request failed")).
  apply (index_build embed_down_world ["raw text about fish"] indexed
           ["raw text about fish"] [chunk_metadata "raw text about fish" 0]
           (snd (for_sources embed_down_world ["raw text about fish"] ([], []) indexed))
           (LibraryError "Embedding request failed"));
    [vm_compute; reflexivity | discriminate | reflexivity].
Defined.

(** The other failure of C3, on a pipeline that holds an index. *)
Example empty_batch_keeps_index :
  fst (create_vector_store offline [dogs_url] indexed) = Raise EmptyBatchError
  /\ vector_store (self (snd (create_vector_store offline [dogs_url] indexed)))
     = vector_store (self indexed).
Proof. split; vm_compute; reflexivity. Qed.

(** C5 on the code: the pipeline holds an index of two chunks and the
    gauge reads 2; an ingestion of one chunk fails while the index is
    built; the index is the old one and the gauge reads 1. *)
Theorem failed_index_build_moves_gauge :
  VECTOR_STORE_SIZE (metrics (env indexed)) = 2
  /\ (length <$> (docstore <$> vector_store (self indexed))) = Some 2%nat
  /\ fst (create_vector_store embed_down_world ["raw text about fish"] indexed)
     = Raise (LibraryError "Embedding request failed")
  /\ vector_store
       (self (snd (create_vector_store embed_down_world ["raw text about fish"] indexed)))
     = vector_store (self indexed)
  /\ VECTOR_STORE_SIZE
       (metrics (env (snd (create_vector_store embed_down_world
                             ["raw text about fish"] indexed))))
     = 1.
Proof. repeat split; vm_compute; reflexivity. Qed.

(** An empty batch leaves the gauge alone. *)
Example empty_batch_keeps_gauge :
  VECTOR_STORE_SIZE
    (metrics (env (snd (create_vector_store offline [dogs_url] indexed))))
  = 2.
Proof. vm_compute; reflexivity. Qed.

(** C4 as stated fails: the fetch of the second source fails, so that it
    contributes no chunk, and the report of the ingest call counts two
    processed sources and lists it as ingested; the report is the one of
    the deployment in which the fetch succeeds. *)
Lemma ingest_report_hides_failed_source :
  failed_sources offline [cats; dogs_url] ([], []) (fresh offline) = [dogs_url]
  /\ fst (create_vector_store offline [cats; dogs_url] (fresh offline)) = Ok tt
  /\ fst (ingest_sources offline cats_and_dogs (started offline))
     = Ok cats_and_dogs_report
  /\ failed_sources online [cats; dogs_url] ([], []) (fresh online) = []
  /\ fst (ingest_sources online cats_and_dogs (started online))
     = Ok cats_and_dogs_report.
Proof. repeat split; vm_compute; reflexivity. Qed.

Lemma ingest_sources_report_witness :
  (exists p, rag_pipeline (started offline) = Some p
     /\ fst (create_vector_store offline (request_sources cats_and_dogs)
               {| self := p; env := app_env (started offline) |}) = Ok tt)
  /\ status cats_and_dogs_report = "success"
  /\ sources_processed cats_and_dogs_report
     = Z.of_nat (length (request_sources cats_and_dogs))
  /\ ingested_sources cats_and_dogs_report = request_sources cats_and_dogs.
Proof.
  apply (ingest_sources_report offline cats_and_dogs (started offline)
           (snd (ingest_sources offline cats_and_dogs (started offline)))
           cats_and_dogs_report).
  vm_compute; reflexivity.
Defined.

(** The pipeline [ready] holds an index of two chunks and a chain, and a
    query on it returns. *)
Example ready_query_returns :
  query offline "What do cats eat?" true ready
  = (Ok ready_response, snd (query offline "What do cats eat?" true ready))
  /\ (map content_preview <$> sources ready_response) = Some [cats; birds].
Proof. split; vm_compute; reflexivity. Qed.

Lemma query_sources_follow_retrieved_chunks_witness :
  (is_Some (sources ready_response) <-> true = true)
  /\ forall entries : list SourceInfo,
       sources ready_response = Some entries ->
       exists store docs,
         vector_store (self ready) = Some store
         /\ similarity_search offline store "What do cats eat?" (cfg_top_k offline)
            = Ok docs
         /\ length entries = length docs
         /\ forall (i : nat) (doc : Document),
              docs !! i = Some doc ->
              exists entry,
                entries !! i = Some entry
                /\ source entry = metadata_get doc "source"
                /\ source_type entry = metadata_get doc "source_type"
                /\ (Str.len (page_content doc) <= 200 ->
                      content_preview entry = page_content doc)
                /\ (200 < Str.len (page_content doc) ->
                      exists kept rest,
                        page_content doc = (kept ++ rest)%string
                        /\ Str.len kept = 200
                        /\ content_preview entry = (kept ++ "...")%string)
                /\ Str.len (content_preview entry) <= 203.
Proof.
  apply (query_sources_follow_retrieved_chunks offline "What do cats eat?" true
           ready (snd (query offline "What do cats eat?" true ready))
           ready_response).
  vm_compute; reflexivity.
Defined.

(** Previews on both sides of the bound. *)
Example preview_of_200 : preview (letters 200) = letters 200.
Proof. vm_compute; reflexivity. Qed.

Example preview_of_201 : preview (letters 201) = (letters 200 ++ "...")%string.
Proof. vm_compute; reflexivity. Qed.

(** The decorated endpoint on a call that raises and on one that
    returns. *)
Example query_question_counts_error :
  query_metrics
    (metrics (app_env (snd (query_question offline
                              {| question := "What do cats eat?"; return_sources := false |}
                              (started offline)))))
  = (0, 1, 1%nat).
Proof. vm_compute; reflexivity. Qed.

Example query_question_counts_success :
  query_metrics
    (metrics (app_env (snd (query_question offline
                              {| question := "What do cats eat?"; return_sources := false |}
                              {| rag_pipeline := Some (self ready);
                                 app_env := env ready |}))))
  = (1, 0, 1%nat).
Proof. vm_compute; reflexivity. Qed.

(** * Further properties of the code *)

(** ** The loader: construction, dispatch and frame *)

Section LoaderMore.

Variable w : World.

Import InformationLoader.


Lemma split_once_whole (sep : ascii) (s : string) :
  contains sep s = false -> Str.split_once sep s = [s].
Proof.
  induction s as [|c s IH]; intros Hno; [reflexivity|].
  simpl in Hno. apply orb_false_elim in Hno as [Hc Hrest].
  simpl. rewrite Hc, (IH Hrest). reflexivity.
Qed.

Lemma load_from_web_env (url : string) (e : Env) :
  snd (_load_from_web w url e) = e.
Proof.
  unfold _load_from_web, try_except, bind, lift_result, ret, raise.
  destruct (requests_get w url); reflexivity.
Qed.

(** The constructor leaves the storage backend enabled exactly when it
    was asked to, both credentials are set, the client could be created
    and the probe of the bucket succeeded; the loader then holds that
    client. *)
Theorem loader_enabled_iff (use : bool) (dir : string) :
  use_s3 (__init__ w use dir) = true
  <-> use = true
      /\ env_missing (getenv w "AWS_ACCESS_KEY_ID") = false
      /\ env_missing (getenv w "AWS_SECRET_ACCESS_KEY") = false
      /\ exists c,
           boto3_client w = Ok c
           /\ head_bucket w c (default "pj-rag-2026" (getenv w "AWS_S3_BUCKET_NAME"))
              = Ok tt
           /\ s3_client (__init__ w use dir) = Some c.
Proof.
  unfold __init__, _init_s3_client. simpl.
  destruct use; simpl.
  - destruct (env_missing (getenv w "AWS_ACCESS_KEY_ID")); simpl.
    { split; [discriminate | intros (_ & H & _); discriminate]. }
    destruct (env_missing (getenv w "AWS_SECRET_ACCESS_KEY")); simpl.
    { split; [discriminate | intros (_ & _ & H & _); discriminate]. }
    destruct (boto3_client w) as [c|x]; simpl.
    + destruct (head_bucket w c _) as [[]|x] eqn:Hprobe; simpl.
      * split; [|reflexivity]. intros _. repeat split. exists c. auto.
      * split; [discriminate|]. intros (_ & _ & _ & c' & [= <-] & H & _).
        rewrite Hprobe in H. discriminate.
    + split; [discriminate|]. intros (_ & _ & _ & c' & H & _). discriminate.
  - split; [discriminate | intros (H & _); discriminate].
Qed.

(** A source that ends in the PDF suffix, is no valid URL and names no
    file fails with the error of the missing file: the raw-text fallback
    is not reached, and the environment is as before. *)
Theorem load_missing_pdf_raises (self : t) (s : string) (e : Env) :
  Str.startswith "s3://" s && use_s3 self = false ->
  validators_url w s = false ->
  Str.endswith ".pdf" s = true ->
  fs e !! s = None ->
  exists msg, load_information w self s e = (Raise (OSError msg), e).
Proof.
  intros Hs3 Hurl Hpdf Hfile.
  unfold load_information, try_except, _load_from_pdf, try_except, bind,
    read_bytes, raise.
  rewrite Hs3, Hurl, Hpdf, Hfile. eexists. reflexivity.
Qed.

(** Outside the object-storage branch a load has no effect on the
    environment, whether it returns or raises. *)
Theorem load_information_keeps_env (self : t) (s : string) (e : Env) :
  Str.startswith "s3://" s && use_s3 self = false ->
  snd (load_information w self s e) = e.
Proof.
  intros Hs3. unfold load_information, try_except. rewrite Hs3.
  destruct (validators_url w s).
  { pose proof (load_from_web_env s e) as H.
    destruct (_load_from_web w s e) as [[c|x] e']; exact H. }
  destruct (Str.endswith ".pdf" s).
  { pose proof (load_from_pdf_env w s e) as H.
    destruct (_load_from_pdf w s e) as [[c|x] e']; exact H. }
  unfold bind, path_exists, gets, ret.
  destruct (bool_decide (is_Some (fs e !! s))); [|reflexivity].
  pose proof (load_from_local_file_env w s e) as H.
  destruct (_load_from_local_file w s e) as [[c|x] e']; exact H.
Qed.

(** The text that a web load returns has at most 10,015 characters: the
    limit and the marker. *)
Theorem load_web_length_bound (self : t) (url out : string) (e e' : Env) :
  Str.startswith "s3://" url && use_s3 self = false ->
  validators_url w url = true ->
  load_information w self url e = (Ok out, e') ->
  Str.len out <= 10015.
Proof.
  intros Hs3 Hurl. rewrite (load_information_web w self url e Hs3 Hurl).
  unfold _load_from_web, try_except, bind, lift_result, ret, raise.
  destruct (requests_get w url) as [body|x]; [|discriminate].
  intros [= <- _].
  destruct (10000 <? Str.len (soup_get_text w body)) eqn:Hb.
  - rewrite len_append.
    pose proof (len_slice_to_le 10000 (soup_get_text w body) ltac:(lia)) as Hle.
    change (Str.len "... [truncated]") with 15. lia.
  - apply Z.ltb_ge in Hb. lia.
Qed.


(** An object-storage URI without a [/] after the bucket is refused with
    a ValueError before anything is downloaded or written. *)
Theorem load_s3_uri_without_key (self : t) (c : S3Client) (uri : string) (e : Env) :
  use_s3 self = true ->
  s3_client self = Some c ->
  Str.startswith "s3://" uri = true ->
  contains "/" (Str.drop 5 uri) = false ->
  load_information w self uri e
  = (Raise (ValueError ("Invalid S3 URI format. " ++ uri
                        ++ " should be in the format s3://bucket/key")), e).
Proof.
  intros Huse Hclient Hprefix Hno.
  unfold load_information, try_except, _load_from_s3.
  rewrite Hprefix, Huse, Hclient. simpl negb.
  rewrite bool_decide_eq_true_2 by (eexists; reflexivity). simpl orb. cbv iota.
  rewrite (split_once_whole "/" _ Hno). reflexivity.
Qed.

(** A PDF whose pages all yield no text loads as the empty string,
    without an error. *)
Theorem load_pdf_without_text (file_path b : string) (pages : list string)
    (e : Env) :
  fs e !! file_path = Some b ->
  pdf_pages w b = Ok pages ->
  Forall (fun page => page = EmptyString) pages ->
  _load_from_pdf w file_path e = (Ok EmptyString, e).
Proof.
  intros Hfile Hpages Hempty.
  unfold _load_from_pdf, try_except, bind, read_bytes, lift_result, ret.
  rewrite Hfile, Hpages.
  replace (List.filter Str.truthy pages) with (@nil string); [reflexivity|].
  clear Hpages. induction Hempty as [|page rest -> _ IH]; [reflexivity|exact IH].
Qed.

End LoaderMore.

(** ** The upload and download helpers *)

Section HelperFacts.

Variable w : World.
Variable u : StorageHelpers.Uploads.

Import InformationLoader StorageHelpers.




End HelperFacts.

(** ** Ingestion: what the index holds *)

Section IngestionMore.

Variable w : World.

Import ProductionRAGPipeline.

Lemma chunk_metadata_tagged (sources_list : list string) (source : string) (i : nat) :
  In source sources_list ->
  chunk_tagged sources_list i (chunk_metadata source (Z.of_nat i)).
Proof.
  intros Hin. unfold chunk_tagged, chunk_metadata. split.
  - rewrite lookup_insert_ne by discriminate. apply lookup_insert_eq.
  - exists source. split; [exact Hin|]. split.
    + apply lookup_insert_eq.
    + rewrite !lookup_insert_ne by discriminate. apply lookup_insert_eq.
Qed.

Lemma append_chunks_ok (sources_list : list string) (source : string)
    (texts : list string) :
  In source sources_list ->
  forall acc, batch_ok sources_list acc ->
              batch_ok sources_list (append_chunks source texts acc).
Proof.
  intros Hin. unfold append_chunks.
  induction texts as [|chunk texts IH]; intros acc Hacc; [exact Hacc|].
  simpl. apply IH. destruct Hacc as [Hlen Htags]. split; simpl.
  - rewrite !length_app. simpl. lia.
  - intros i m Hi. apply lookup_app_Some in Hi as [Hi | [Hge Hi]].
    + apply Htags. exact Hi.
    + apply list_lookup_singleton_Some in Hi as [Hz <-].
      rewrite length_app. simpl.
      replace (Z.of_nat (length acc.1 + 1) - 1) with (Z.of_nat i) by lia.
      apply chunk_metadata_tagged. exact Hin.
Qed.

Lemma process_source_ok (sources_list : list string) (source : string)
    (acc acc' : list string * list (gmap string meta_value)) (st st' : PState) :
  In source sources_list ->
  batch_ok sources_list acc ->
  process_source w source acc st = (Ok acc', st') ->
  batch_ok sources_list acc'.
Proof.
  intros Hin Hacc.
  unfold process_source, process_source_body, try_except, bind, gets, zoom,
    lift_result, ret.
  destruct (InformationLoader.load_information w _ source (env st)) as [[c|x] e1];
    simpl; [|intros [= <- _]; exact Hacc].
  destruct (split_text w _ _ c) as [texts|x]; simpl; intros [= <- _];
    [apply append_chunks_ok; assumption | exact Hacc].
Qed.

(** The loop keeps the two lists of the batch in step, each metadata
    holding its own position and a source of the batch. *)
Lemma for_sources_ok (all_sources sources_list : list string)
    (acc acc' : list string * list (gmap string meta_value)) (st st' : PState) :
  (forall source, In source sources_list -> In source all_sources) ->
  batch_ok all_sources acc ->
  for_sources w sources_list acc st = (Ok acc', st') ->
  batch_ok all_sources acc'.
Proof.
  revert acc st. induction sources_list as [|source rest IH];
    intros acc st Hsub Hacc; simpl.
  - intros [= <- _]. exact Hacc.
  - unfold bind.
    destruct (process_source_total w source acc st) as (acc1 & e1 & Hstep).
    rewrite Hstep. apply IH.
    + intros s Hs. apply Hsub. now right.
    + eapply process_source_ok; [apply Hsub; now left | exact Hacc | exact Hstep].
Qed.

(** After an ingestion that returns, the pipeline holds a non-empty
    index whose size is the value of the gauge, and the document at
    position [i] carries [i] as its [chunk_index] together with a source
    of the batch and the kind of that source. *)
Theorem create_vector_store_index (sources_list : list string)
    (st st' : PState) (r : unit) :
  create_vector_store w sources_list st = (Ok r, st') ->
  exists store,
    vector_store (self st') = Some store
    /\ docstore store <> []
    /\ VECTOR_STORE_SIZE (metrics (env st')) = Z.of_nat (length (docstore store))
    /\ forall (i : nat) (doc : Document),
         docstore store !! i = Some doc ->
         chunk_tagged sources_list i (metadata doc).
Proof.
  unfold create_vector_store, bind.
  destruct (for_sources_total w sources_list ([], []) st)
    as ([texts metas] & e1 & Hloop).
  rewrite Hloop. simpl.
  assert (Hok : batch_ok sources_list (texts, metas)).
  { eapply for_sources_ok; [intros s Hs; exact Hs | | exact Hloop].
    split; [reflexivity|]. intros i m Hi. discriminate. }
  destruct Hok as [Hlen Htags]. simpl in Hlen, Htags.
  destruct texts as [|chunk texts]; [discriminate|].
  unfold zoom, lift_result, Observability.VECTOR_STORE_SIZE_set, modify,
    _create_qa_chain, bind, gets, lift_result, ret, FAISS_from_texts.
  destruct (embed_documents w (chunk :: texts)) as [[]|x]; [|discriminate].
  simpl. destruct (load_qa_chain w _ _) as [chain|x]; [|discriminate].
  simpl. intros [= _ <-]. simpl.
  eexists. split; [reflexivity|].
  destruct metas as [|m metas]; [discriminate|]. simpl.
  split; [discriminate|]. split.
  - rewrite length_zip_with_l_eq by (simpl in Hlen; lia). reflexivity.
  - intros i doc Hi.
    change (zip_with mkDocument (chunk :: texts) (m :: metas) !! i = Some doc) in Hi.
    apply lookup_zip_with_Some in Hi as (text & m' & -> & _ & Hm).
    simpl. apply Htags. exact Hm.
Qed.

Lemma process_source_loader (source : string)
    (acc : list string * list (gmap string meta_value)) (p1 p2 : t) (e : Env) :
  information_loader p1 = information_loader p2 ->
  exists acc' e',
    process_source w source acc (mkPState p1 e) = (Ok acc', mkPState p1 e')
    /\ process_source w source acc (mkPState p2 e) = (Ok acc', mkPState p2 e').
Proof.
  intros Hloader.
  unfold process_source, process_source_body, try_except, bind, gets, zoom,
    lift_result, ret, set_env. simpl. rewrite Hloader.
  destruct (InformationLoader.load_information w _ source e) as [[c|x] e1];
    simpl; [|eauto].
  destruct (split_text w _ _ c) as [texts|x]; simpl; eauto.
Qed.

Lemma for_sources_loader (sources_list : list string)
    (acc : list string * list (gmap string meta_value)) (p1 p2 : t) (e : Env) :
  information_loader p1 = information_loader p2 ->
  exists acc' e',
    for_sources w sources_list acc (mkPState p1 e) = (Ok acc', mkPState p1 e')
    /\ for_sources w sources_list acc (mkPState p2 e) = (Ok acc', mkPState p2 e').
Proof.
  intros Hloader. revert acc e.
  induction sources_list as [|source rest IH]; intros acc e; simpl.
  - exists acc, e. split; reflexivity.
  - unfold bind.
    destruct (process_source_loader source acc p1 p2 e Hloader)
      as (acc1 & e1 & -> & ->).
    apply IH.
Qed.

(** Every ingestion rebuilds from its sources alone: the outcome and the
    environment it leaves do not depend on the index and chain that the
    pipeline held before, and neither does the pipeline after a call that
    returns. *)
Theorem create_vector_store_ignores_previous (sources_list : list string)
    (st : PState) (v : option FAISS) (c : option QAChain) :
  fst (create_vector_store w sources_list (assign_qa_chain c (assign_vector_store v st)))
  = fst (create_vector_store w sources_list st)
  /\ env (snd (create_vector_store w sources_list
                 (assign_qa_chain c (assign_vector_store v st))))
     = env (snd (create_vector_store w sources_list st))
  /\ match fst (create_vector_store w sources_list st) with
     | Ok _ =>
         self (snd (create_vector_store w sources_list
                      (assign_qa_chain c (assign_vector_store v st))))
         = self (snd (create_vector_store w sources_list st))
     | Raise _ => True
     end.
Proof.
  destruct st as [p e]. unfold assign_qa_chain, assign_vector_store. simpl.
  unfold create_vector_store, bind.
  match goal with
  | |- context [for_sources w sources_list ([], []) (mkPState ?p1 e)] =>
      destruct (for_sources_loader sources_list ([], []) p1 p e eq_refl)
        as ([texts metas] & e1 & -> & ->)
  end.
  simpl. destruct texts as [|chunk texts]; [repeat split|].
  unfold zoom, lift_result, Observability.VECTOR_STORE_SIZE_set, modify,
    _create_qa_chain, bind, gets, lift_result, ret. simpl.
  destruct (FAISS_from_texts w (chunk :: texts) metas) as [store|x]; simpl;
    [|repeat split].
  destruct (load_qa_chain w _ _) as [chain|x]; simpl; repeat split.
Qed.

Lemma failed_sources_length (sources_list : list string)
    (acc : list string * list (gmap string meta_value)) (st : PState) :
  (length (failed_sources w sources_list acc st) <= length sources_list)%nat.
Proof.
  revert acc st. induction sources_list as [|source rest IH]; intros acc st;
    simpl; [lia|].
  destruct (process_source_total w source acc st) as (acc1 & e1 & ->).
  rewrite length_app. specialize (IH acc1 (mkPState (self st) e1)).
  destruct (negb _); simpl; lia.
Qed.

Lemma all_failed_keeps_batch (sources_list : list string)
    (acc : list string * list (gmap string meta_value)) (st : PState) :
  failed_sources w sources_list acc st = sources_list ->
  fst (for_sources w sources_list acc st) = Ok acc.
Proof.
  revert acc st. induction sources_list as [|source rest IH]; intros acc st;
    simpl; [reflexivity|].
  unfold bind, process_source, try_except.
  destruct (process_source_body w source acc st) as [[acc1|x] st1] eqn:Hbody;
    simpl.
  - intros Hall.
    pose proof (failed_sources_length rest acc1 st1) as Hlen.
    rewrite Hall in Hlen. simpl in Hlen. lia.
  - unfold ret. intros [= Hall]. apply IH. exact Hall.
Qed.

(** When every source of the batch fails, empty batch included, the call
    raises the empty-batch ValueError, whatever the errors of the sources
    were. *)
Theorem all_sources_failed_is_empty_batch (sources_list : list string)
    (st : PState) :
  failed_sources w sources_list ([], []) st = sources_list ->
  fst (create_vector_store w sources_list st) = Raise EmptyBatchError.
Proof.
  intros Hall. apply all_failed_keeps_batch in Hall.
  unfold create_vector_store, bind.
  destruct (for_sources w sources_list ([], []) st) as [[acc|x] st1];
    simpl in Hall; [|discriminate].
  injection Hall as ->. reflexivity.
Qed.

End IngestionMore.

(** ** Query: frame and token accounting *)

Section QueryMore.

Variable w : World.

Import ProductionRAGPipeline Observability.

(** A query is a read path: whatever its outcome, the pipeline object,
    and so its index and chain, and the file system are as before. *)
Theorem query_is_read_only (q : string) (rs : bool) (st : PState) :
  self (snd (query w q rs st)) = self st
  /\ fs (env (snd (query w q rs st))) = fs (env st).
Proof.
  unfold query, bind, zoom, time_time, gets. simpl.
  destruct (vector_store (self st)) as [store|]; [|split; reflexivity].
  destruct (qa_chain (self st)) as [chain|]; [|split; reflexivity].
  unfold try_except, bind, lift_result, zoom, ret, raise.
  destruct (similarity_search w store q (cfg_top_k w)) as [docs|x];
    [|split; reflexivity].
  destruct (chain_run w chain docs q) as [[[ans tokens] cost]|x];
    [|split; reflexivity].
  simpl. unfold TOKENS_USED_inc, counter_inc, raise, modify.
  destruct (tokens <? 0); split; reflexivity.
Qed.

(** A query that returns adds the token count it reports, which is not
    negative, to the token counter; a query that raises leaves the
    counter alone. *)
Theorem query_token_accounting (q : string) (rs : bool) (st : PState) :
  match fst (query w q rs st) with
  | Ok response =>
      0 <= tokens_used response
      /\ TOKENS_USED (metrics (env (snd (query w q rs st))))
         = TOKENS_USED (metrics (env st)) + tokens_used response
  | Raise _ =>
      TOKENS_USED (metrics (env (snd (query w q rs st))))
      = TOKENS_USED (metrics (env st))
  end.
Proof.
  unfold query, bind, zoom, time_time, gets. simpl.
  destruct (vector_store (self st)) as [store|]; [|reflexivity].
  destruct (qa_chain (self st)) as [chain|]; [|reflexivity].
  unfold try_except, bind, lift_result, zoom, ret, raise.
  destruct (similarity_search w store q (cfg_top_k w)) as [docs|x];
    [|reflexivity].
  destruct (chain_run w chain docs q) as [[[ans tokens] cost]|x];
    [|reflexivity].
  simpl. unfold TOKENS_USED_inc, counter_inc, raise, modify.
  destruct (tokens <? 0) eqn:Hneg; simpl; [reflexivity|].
  apply Z.ltb_ge in Hneg. destruct rs; simpl; split; auto.
Qed.

End QueryMore.

(** ** The endpoints: decorator, errors, health and startup *)

Section EndpointMore.

Variable w : World.

Import ProductionRAGPipeline Main Observability App.

(** The outcome of a decorated function is the outcome of the function,
    run after the first reading of the clock. *)
Lemma track_metrics_fst {A} (func : M AppState A) (st : AppState) :
  fst (track_metrics app_env set_app_env func st)
  = fst (func (set_app_env (tick (app_env st)) st)).
Proof.
  unfold track_metrics, bind, zoom, time_time, try_finally, try_except,
    QUERY_COUNT_inc, QUERY_ERRORS_inc, counter_inc, modify, ret, raise, tick.
  simpl.
  destruct (func _) as [[a|x] s1]; reflexivity.
Qed.

(** The decorator is transparent: it passes on the value or the
    exception of the function it wraps, and besides the clock and the
    three query metrics it leaves the state as the function left it. *)
Theorem track_metrics_transparent {A} (func : M AppState A) (st : AppState) :
  fst (track_metrics app_env set_app_env func st)
  = fst (func (set_app_env (tick (app_env st)) st))
  /\ rag_pipeline (snd (track_metrics app_env set_app_env func st))
     = rag_pipeline (snd (func (set_app_env (tick (app_env st)) st)))
  /\ fs (app_env (snd (track_metrics app_env set_app_env func st)))
     = fs (app_env (snd (func (set_app_env (tick (app_env st)) st))))
  /\ TOKENS_USED (metrics (app_env (snd (track_metrics app_env set_app_env func st))))
     = TOKENS_USED (metrics (app_env (snd (func (set_app_env (tick (app_env st)) st)))))
  /\ VECTOR_STORE_SIZE
       (metrics (app_env (snd (track_metrics app_env set_app_env func st))))
     = VECTOR_STORE_SIZE
         (metrics (app_env (snd (func (set_app_env (tick (app_env st)) st))))).
Proof.
  unfold track_metrics, bind, zoom, time_time, try_finally, try_except,
    QUERY_COUNT_inc, QUERY_ERRORS_inc, QUERY_LATENCY_observe, counter_inc,
    modify, ret, raise, tick.
  simpl.
  destruct (func _) as [[a|x] s1]; simpl; repeat split.
Qed.

(** The query endpoint fails in two ways only: with status 503 when no
    pipeline has been created, and with status 500 carrying the text of
    the exception that the pipeline's query raised. *)
Theorem query_question_errors (request : QueryRequest) (st : AppState) :
  match fst (query_question w request st) with
  | Ok _ => is_Some (rag_pipeline st)
  | Raise x =>
      (rag_pipeline st = None
       /\ x = HTTPException 503 "RAG pipeline not initialized.")
      \/ exists p x0,
           rag_pipeline st = Some p
           /\ fst (query w (question request) (return_sources request)
                     {| self := p; env := tick (app_env st) |}) = Raise x0
           /\ x = HTTPException 500 (str x0)
  end.
Proof.
  unfold query_question. rewrite track_metrics_fst.
  unfold query_question_body, bind, gets. simpl.
  destruct (rag_pipeline st) as [p|]; simpl; [|left; split; reflexivity].
  unfold try_except, call_method, raise. simpl.
  destruct (query w (question request) (return_sources request) _)
    as [[r|x0] ps] eqn:Hq; simpl.
  - eexists; reflexivity.
  - right. exists p, x0. rewrite Hq. repeat split.
Qed.

(** The [replace_existing] flag of an ingest request changes the message
    of the report and nothing else: both settings rebuild the index from
    the sources of the request and leave the same state. *)
Theorem ingest_replace_flag (sources_list : list string) (st : AppState) :
  snd (ingest_sources w (mkIngestRequest sources_list true) st)
  = snd (ingest_sources w (mkIngestRequest sources_list false) st)
  /\ match fst (ingest_sources w (mkIngestRequest sources_list true) st),
           fst (ingest_sources w (mkIngestRequest sources_list false) st) with
     | Ok r1, Ok r2 =>
         message r1 = "Vector store replaced with new sources."
         /\ message r2 = "New sources added to existing vector store."
         /\ status r1 = status r2
         /\ sources_processed r1 = sources_processed r2
         /\ ingested_sources r1 = ingested_sources r2
     | Raise x1, Raise x2 => x1 = x2
     | _, _ => False
     end.
Proof.
  unfold ingest_sources, bind, gets. simpl.
  destruct (rag_pipeline st) as [p|]; simpl; [|split; reflexivity].
  unfold try_except, bind, call_method, ret, raise. simpl.
  destruct (create_vector_store w sources_list _) as [[[]|x] ps]; simpl;
    repeat split.
Qed.

(** The ingest endpoint fails with status 503 when no pipeline has been
    created and otherwise with status 500 carrying the text of the
    exception of [create_vector_store]. *)
Theorem ingest_sources_errors (request : IngestRequest) (st : AppState) :
  match fst (ingest_sources w request st) with
  | Ok _ => is_Some (rag_pipeline st)
  | Raise x =>
      (rag_pipeline st = None
       /\ x = HTTPException 503 "RAG pipeline not initialized.")
      \/ exists p x0,
           rag_pipeline st = Some p
           /\ fst (create_vector_store w (request_sources request)
                     {| self := p; env := app_env st |}) = Raise x0
           /\ x = HTTPException 500 (str x0)
  end.
Proof.
  unfold ingest_sources, bind, gets. simpl.
  destruct (rag_pipeline st) as [p|]; simpl; [|left; split; reflexivity].
  unfold try_except, raise.
  destruct (replace_existing request); unfold bind, call_method, ret;
    destruct (create_vector_store w (request_sources request) _)
      as [[[]|x0] ps] eqn:Hcall; simpl;
    try (eexists; reflexivity);
    right; exists p, x0; rewrite Hcall; repeat split.
Qed.

End EndpointMore.

Section StartupFacts.

Variable w : World.
Variable cfg : App.AppConfig.

Import ProductionRAGPipeline Main App.


(** The health endpoint never fails and changes nothing but the clock.
    It reports the index as initialised exactly when a pipeline exists
    and holds a vector store, and it says "healthy" in that case and
    "degraded" otherwise. *)
Theorem health_check_reports (st : AppState) :
  exists h,
    health_check cfg st = (Ok h, set_app_env (tick (app_env st)) st)
    /\ service h = application_name cfg
    /\ (vector_store_initialized h = true
        <-> exists p store, rag_pipeline st = Some p /\ vector_store p = Some store)
    /\ (health_status h = "healthy" <-> vector_store_initialized h = true)
    /\ (health_status h = "degraded" <-> vector_store_initialized h = false).
Proof.
  unfold health_check, bind, gets, zoom, time_time, ret, tick. simpl.
  eexists. split; [reflexivity|]. simpl. split; [reflexivity|].
  destruct (rag_pipeline st) as [p|]; simpl.
  - destruct (vector_store p) as [store|] eqn:Hstore; simpl.
    + repeat split; try discriminate; eauto.
    + repeat split; try discriminate.
      intros (p' & store & [= <-] & H). rewrite Hstore in H. discriminate.
  - repeat split; try discriminate.
    intros (p' & store & H & _). discriminate.
Qed.

(** After an ingest call that returns, the health endpoint says
    "healthy". *)
Theorem health_after_ingest (request : IngestRequest) (st st' : AppState)
    (report : IngestReport) :
  ingest_sources w request st = (Ok report, st') ->
  exists h,
    fst (health_check cfg st') = Ok h
    /\ health_status h = "healthy"
    /\ vector_store_initialized h = true.
Proof.
  unfold ingest_sources, bind, gets. simpl.
  destruct (rag_pipeline st) as [p|]; simpl; [|discriminate].
  unfold try_except, raise.
  assert (Hcall : forall ps (r : unit),
            create_vector_store w (request_sources request)
              {| self := p; env := app_env st |} = (Ok r, ps) ->
            is_Some (vector_store (self ps))).
  { intros ps r H.
    apply (create_vector_store_returns_without_chain w _ _ _ _ H). }
  destruct (replace_existing request); unfold bind, call_method, ret;
    destruct (create_vector_store w (request_sources request) _)
      as [[r|x] ps] eqn:Hrun; simpl; try discriminate;
    intros [= _ <-];
    destruct (Hcall ps r eq_refl) as [store Hstore];
    unfold health_check, bind, gets, zoom, time_time, ret; simpl;
    rewrite Hstore;
    rewrite bool_decide_eq_true_2 by (eexists; reflexivity);
    eexists; repeat split.
Qed.


End StartupFacts.

(** ** The legacy functions *)

Section LegacyFacts.

Variable w : World.

Import ProductionRAGPipeline Legacy.



End LegacyFacts.

(** ** The configuration view *)

Section ConfigFacts.

Import Config.

(** [show_config] redacts the PDF path in the live configuration, not
    only in what it returns: the view it returns is the top-level dict of
    [CONFIG], and afterwards [CONFIG['pdf']['file_path']] itself reads
    "REDACTED". The other keys of the section and the other sections are
    as before, and a second call changes nothing more. *)
Theorem show_config_redacts_live_config (s : Store) (a : nat)
    (entries : gmap string cfg_value) (v : cfg_value) :
  CONFIG s !! "pdf" = Some a ->
  heap s !! a = Some entries ->
  entries !! "file_path" = Some v ->
  exists s',
    show_config s = (Ok (CONFIG s), s')
    /\ CONFIG s' = CONFIG s
    /\ read s' (CONFIG s') "pdf" "file_path" = Some (CStr "REDACTED")
    /\ (forall key, key <> "file_path" ->
                    read s' (CONFIG s') "pdf" key = read s (CONFIG s) "pdf" key)
    /\ (forall a', a' <> a -> heap s' !! a' = heap s !! a')
    /\ show_config s' = (Ok (CONFIG s'), s').
Proof.
  intros Hpdf Hheap Hpath. unfold show_config. rewrite Hpdf, Hheap, Hpath.
  rewrite bool_decide_eq_true_2 by (eexists; reflexivity).
  eexists. split; [reflexivity|]. simpl. split; [reflexivity|].
  unfold read. simpl. rewrite Hpdf, Hheap. rewrite !lookup_insert_eq.
  split; [reflexivity|]. split.
  { intros key Hkey. rewrite lookup_insert_ne by congruence. reflexivity. }
  split.
  { intros a' Ha'. rewrite lookup_insert_ne by congruence. reflexivity. }
  rewrite bool_decide_eq_true_2 by (eexists; reflexivity).
  rewrite !insert_insert_eq. reflexivity.
Qed.

End ConfigFacts.

(** ** The further properties on concrete inputs *)

Lemma load_missing_pdf_raises_witness :
  exists msg,
    InformationLoader.load_information offline (loader offline) "report.pdf" fresh_env
    = (Raise (OSError msg), fresh_env).
Proof.
  apply (load_missing_pdf_raises offline (loader offline) "report.pdf" fresh_env);
    vm_compute; reflexivity.
Defined.

Lemma load_information_keeps_env_witness :
  snd (InformationLoader.load_information offline (loader offline) dogs_url fresh_env)
  = fresh_env.
Proof.
  apply (load_information_keeps_env offline (loader offline) dogs_url fresh_env).
  vm_compute; reflexivity.
Defined.

Lemma load_web_length_bound_witness :
  Str.len (letters 10000 ++ truncation_marker)%string <= 10015.
Proof.
  apply (load_web_length_bound longer_page_world (loader longer_page_world)
           "https://example.com/longer" (letters 10000 ++ truncation_marker)%string
           fresh_env fresh_env); vm_compute; reflexivity.
Defined.


Lemma load_s3_uri_without_key_witness :
  InformationLoader.load_information s3_world (loader s3_world) "s3://pj-rag-2026"
    fresh_env
  = (Raise (ValueError ("Invalid S3 URI format. " ++ "s3://pj-rag-2026"
                        ++ " should be in the format s3://bucket/key")),
     fresh_env).
Proof.
  apply (load_s3_uri_without_key s3_world (loader s3_world) Boto3Client
           "s3://pj-rag-2026" fresh_env); vm_compute; reflexivity.
Defined.

Lemma load_pdf_without_text_witness :
  InformationLoader._load_from_pdf Cases.blank_pdf_world "scan.pdf" Cases.scan_env
  = (Ok EmptyString, Cases.scan_env).
Proof.
  apply (load_pdf_without_text Cases.blank_pdf_world "scan.pdf" "%PDF-1.7"
           [EmptyString; EmptyString] Cases.scan_env).
  - vm_compute; reflexivity.
  - reflexivity.
  - repeat constructor.
Defined.


Lemma create_vector_store_index_witness :
  exists store,
    vector_store (self indexed) = Some store
    /\ docstore store <> []
    /\ VECTOR_STORE_SIZE (metrics (env indexed)) = Z.of_nat (length (docstore store))
    /\ forall (i : nat) (doc : Document),
         docstore store !! i = Some doc ->
         chunk_tagged [cats; birds] i (metadata doc).
Proof.
  apply (create_vector_store_index offline [cats; birds] (fresh offline) indexed tt).
  vm_compute; reflexivity.
Defined.

Lemma all_sources_failed_is_empty_batch_witness :
  fst (create_vector_store offline [dogs_url] (fresh offline)) = Raise EmptyBatchError.
Proof.
  apply (all_sources_failed_is_empty_batch offline [dogs_url] (fresh offline)).
  vm_compute; reflexivity.
Defined.

Lemma create_vector_store_raises_witness :
  build_failure embed_down_world ["raw text about fish"] indexed
    (LibraryError "Embedding request failed")
  \/ load_qa_chain embed_down_world (openai_api_key (self indexed)) prompt_template
     = Raise (LibraryError "Embedding request failed").
Proof.
  apply (create_vector_store_raises embed_down_world ["raw text about fish"] indexed
           (snd (create_vector_store embed_down_world ["raw text about fish"] indexed))
           (LibraryError "Embedding request failed")).
  vm_compute; reflexivity.
Defined.

Lemma health_after_ingest_witness :
  exists h,
    fst (App.health_check Cases.app_config
           (snd (ingest_sources offline cats_and_dogs (started offline)))) = Ok h
    /\ App.health_status h = "healthy"
    /\ App.vector_store_initialized h = true.
Proof.
  apply (health_after_ingest offline Cases.app_config cats_and_dogs (started offline)
           (snd (ingest_sources offline cats_and_dogs (started offline)))
           cats_and_dogs_report).
  vm_compute; reflexivity.
Defined.


Lemma show_config_redacts_live_config_witness :
  exists s',
    Config.show_config Cases.config_store
    = (Ok (Config.CONFIG Cases.config_store), s')
    /\ Config.CONFIG s' = Config.CONFIG Cases.config_store
    /\ Config.read s' (Config.CONFIG s') "pdf" "file_path"
       = Some (Config.CStr "REDACTED")
    /\ (forall key, key <> "file_path" ->
                    Config.read s' (Config.CONFIG s') "pdf" key
                    = Config.read Cases.config_store
                        (Config.CONFIG Cases.config_store) "pdf" key)
    /\ (forall a', a' <> 1%nat ->
                   Config.heap s' !! a' = Config.heap Cases.config_store !! a')
    /\ Config.show_config s' = (Ok (Config.CONFIG s'), s').
Proof.
  apply (show_config_redacts_live_config Cases.config_store 1%nat
           {["file_path" := Config.CStr "data/handbook.pdf"]}
           (Config.CStr "data/handbook.pdf")); vm_compute; reflexivity.
Defined.

(** Startup in the deployment of the examples, with and without a key. *)
Example startup_without_key :
  fst (App.startup_event offline Cases.app_config
         {| App.app := {| rag_pipeline := None; app_env := fresh_env |};
            App.information_loader := None |})
  = Raise (ValueError App.missing_key_message).
Proof. vm_compute; reflexivity. Qed.
